(** * Trivia API (backend/flaskr/__init__.py): a shallow embedding

    The Flask application of [backend/flaskr/__init__.py] is embedded as
    pure functions over an explicit store.  JSON request bodies are Python
    values, a handler is a computation in a state-and-exception monad over
    the store, [abort(n)] raises an HTTP exception that a bare [except:]
    catches like any other, and the registered error handlers turn the
    outcome of a handler into a response. *)

From Stdlib Require Import ZArith List String Ascii Bool Lia DecimalString.
From Stdlib Require Import NArith DecimalZ DecimalPos Sorted Permutation.
Import ListNotations.

Local Open Scope string_scope.
Local Open Scope Z_scope.

Set Warnings "-register-all".

(** ** Python values *)

(** The values [request.get_json()] can produce.  A float is kept as its
    IEEE-754 binary64 bit pattern; a dict as an association list whose keys
    are looked up front to back. *)
Inductive value : Type :=
| VNone
| VBool (b : bool)
| VInt (n : Z)
| VFloat (bits : Z)
| VStr (s : string)
| VList (l : list value)
| VDict (d : list (string * value)).

(** [bool(v)]: the truth value Python gives [v] in an [if]. *)
Definition truthy (v : value) : bool :=
  match v with
  | VNone => false
  | VBool b => b
  | VInt n => negb (n =? 0)
  | VFloat bits => negb (Z.land bits (2 ^ 63 - 1) =? 0)
  | VStr s => negb (s =? "")%string
  | VList l => match l with [] => false | _ :: _ => true end
  | VDict d => match d with [] => false | _ :: _ => true end
  end.

(** [v == s] for a string literal [s]: only a [str] equals a [str]. *)
Definition eq_str (v : value) (s : string) : bool :=
  match v with
  | VStr t => (t =? s)%string
  | _ => false
  end.

Fixpoint dict_get (k : string) (d : list (string * value)) : option value :=
  match d with
  | [] => None
  | (k', v) :: d' => if (k' =? k)%string then Some v else dict_get k d'
  end.

(** The entry of a dict under [k], or [default] when it has none. *)
Definition dict_get_or (k : string) (d : list (string * value))
  (default : value) : value :=
  match dict_get k d with
  | Some v => v
  | None => default
  end.

Definition dict_has (k : string) (d : list (string * value)) : bool :=
  match dict_get k d with Some _ => true | None => false end.

(** Structural equality of values, the comparison the store applies to a
    loosely typed column. *)
Fixpoint value_eqb (a b : value) : bool :=
  match a, b with
  | VNone, VNone => true
  | VBool x, VBool y => Bool.eqb x y
  | VInt x, VInt y => x =? y
  | VFloat x, VFloat y => x =? y
  | VStr x, VStr y => (x =? y)%string
  | VList x, VList y =>
      (fix all2 (x y : list value) : bool :=
         match x, y with
         | [], [] => true
         | u :: x', v :: y' => value_eqb u v && all2 x' y'
         | _, _ => false
         end) x y
  | VDict x, VDict y =>
      (fix all2 (x y : list (string * value)) : bool :=
         match x, y with
         | [], [] => true
         | (j, u) :: x', (k, v) :: y' =>
             (j =? k)%string && value_eqb u v && all2 x' y'
         | _, _ => false
         end) x y
  | _, _ => false
  end.

(** Induction on values, through the lists nested in them. *)
Section ValueInduction.

Variable P : value -> Prop.
Hypothesis HNone : P VNone.
Hypothesis HBool : forall b, P (VBool b).
Hypothesis HInt : forall n, P (VInt n).
Hypothesis HFloat : forall bits, P (VFloat bits).
Hypothesis HStr : forall s, P (VStr s).
Hypothesis HList : forall l, Forall P l -> P (VList l).
Hypothesis HDict : forall d, Forall (fun kv => P (snd kv)) d -> P (VDict d).

Fixpoint value_nested_ind (v : value) : P v :=
  match v with
  | VNone => HNone
  | VBool b => HBool b
  | VInt n => HInt n
  | VFloat bits => HFloat bits
  | VStr s => HStr s
  | VList l =>
      HList l
        ((fix all (l : list value) : Forall P l :=
            match l with
            | [] => Forall_nil P
            | v :: l' => Forall_cons v (value_nested_ind v) (all l')
            end) l)
  | VDict d =>
      HDict d
        ((fix all (d : list (string * value))
            : Forall (fun kv => P (snd kv)) d :=
            match d with
            | [] => Forall_nil _
            | kv :: d' =>
                Forall_cons (P := fun kv => P (snd kv)) kv
                            (value_nested_ind (snd kv)) (all d')
            end) d)
  end.

End ValueInduction.

(** ** Strings *)

(** [s in t] on strings: [s] occurs in [t]. *)
Fixpoint prefixb (s t : string) : bool :=
  match s with
  | EmptyString => true
  | String a s' =>
      match t with
      | EmptyString => false
      | String b t' => (a =? b)%char && prefixb s' t'
      end
  end.

Fixpoint substringb (s t : string) : bool :=
  prefixb s t ||
  match t with
  | EmptyString => false
  | String _ t' => substringb s t'
  end.

(** [str(n)] for an [int]. *)
Definition str_int (n : Z) : string := NilZero.string_of_int (Z.to_int n).

(** *** Text as the store sees it

    A Python [str] is kept as its UTF-8 bytes; the store matches text
    character by character. *)

(** A continuation byte of UTF-8, [10xxxxxx]. *)
Definition continuation (b : ascii) : bool :=
  ((128 <=? N_of_ascii b) && (N_of_ascii b <? 192))%N.

(** The six payload bits of a continuation byte. *)
Definition low6 (b : ascii) : N := (N_of_ascii b - 128)%N.

(** The characters (code points) of a string: the UTF-8 sequences of one to
    four bytes in their shortest form; a byte that starts no such sequence
    counts as a character of its own. *)
Fixpoint chars (s : string) : list N :=
  match s with
  | EmptyString => []
  | String b0 r0 =>
      let n0 := N_of_ascii b0 in
      let single := n0 :: chars r0 in
      if (n0 <? 192)%N then single
      else
        match r0 with
        | EmptyString => single
        | String b1 r1 =>
            if negb (continuation b1) then single
            else if (n0 <? 224)%N then
              let c := ((n0 - 192) * 64 + low6 b1)%N in
              if (128 <=? c)%N then c :: chars r1 else single
            else
              match r1 with
              | EmptyString => single
              | String b2 r2 =>
                  if negb (continuation b2) then single
                  else if (n0 <? 240)%N then
                    let c := ((n0 - 224) * 4096 + low6 b1 * 64 + low6 b2)%N in
                    if (2048 <=? c)%N then c :: chars r2 else single
                  else
                    match r2 with
                    | EmptyString => single
                    | String b3 r3 =>
                        if negb (continuation b3) then single
                        else
                          let c := ((n0 - 240) * 262144 + low6 b1 * 4096
                                    + low6 b2 * 64 + low6 b3)%N in
                          if ((65536 <=? c) && (c <? 1114112))%N
                          then c :: chars r3 else single
                    end
              end
        end
  end.

(** The characters with a meaning in a LIKE pattern: [%], [_] and the
    backslash. *)
Definition pattern_char (c : N) : bool :=
  ((c =? 37) || (c =? 95) || (c =? 92))%N.

(** Lower-casing of one character by the store.  The ASCII capitals become
    the small letters; what any other character becomes is the choice of
    the store and its locale, [store_lower], except that no character
    becomes a pattern character. *)
Definition fold_char (store_lower : N -> N) (c : N) : N :=
  if (c <? 128)%N then
    if ((65 <=? c) && (c <=? 90))%N then (c + 32)%N else c
  else if pattern_char (store_lower c) then c else store_lower c.

(** The lower-cased characters of a string. *)
Definition fold (store_lower : N -> N) (s : string) : list N :=
  map (fold_char store_lower) (chars s).

(** The store's LIKE: [%] stands for any run of characters, [_] for any one
    character, a backslash makes the next pattern character literal. *)
Fixpoint like_star (k : list N -> bool) (s : list N) : bool :=
  k s ||
  match s with
  | [] => false
  | _ :: s' => like_star k s'
  end.

Fixpoint like (p s : list N) : bool :=
  match p with
  | [] =>
      match s with [] => true | _ :: _ => false end
  | c :: p' =>
      if (c =? 37)%N then like_star (like p') s
      else if (c =? 95)%N then
        match s with
        | [] => false
        | _ :: s' => like p' s'
        end
      else if (c =? 92)%N then
        match p' with
        | [] => false
        | e :: p'' =>
            match s with
            | [] => false
            | a :: s' => (a =? e)%N && like p'' s'
            end
        end
      else
        match s with
        | [] => false
        | a :: s' => (a =? c)%N && like p' s'
        end
  end.

(** [column.ilike(pattern)]: LIKE on the lower-cased pattern and text. *)
Definition ilike (store_lower : N -> N) (s pattern : string) : bool :=
  like (fold store_lower pattern) (fold store_lower s).

(** ** Python list slicing *)

(** The bound of a slice brought into [0 .. n]: a negative bound counts from
    the end of the list. *)
Definition slice_bound (n i : Z) : Z :=
  if i <? 0 then Z.max 0 (i + n) else Z.min i n.

(** [l[start:stop]]. *)
Definition py_slice {A : Type} (l : list A) (start stop : Z) : list A :=
  let n := Z.of_nat (List.length l) in
  let lo := slice_bound n start in
  let hi := slice_bound n stop in
  firstn (Z.to_nat (hi - lo)) (skipn (Z.to_nat lo) l).

(** [len(l)] as a Python [int]. *)
Definition len {A : Type} (l : list A) : Z := Z.of_nat (List.length l).

(** ** The records of models.py *)

(** Modelled from the spec: models.py ([Question], [Category], [setup_db])
    is not among the sources.  A Question has a store-assigned integer [id],
    the texts [question] and [answer], a loosely typed [category] and an
    integer [difficulty]; [format()] is the record [{id, question, answer,
    category, difficulty}]. *)
Module Question.
Record t : Type := Build {
  id : Z;
  question : string;
  answer : string;
  category : value;
  difficulty : Z
}.

Definition format (q : t) : value :=
  VDict [("id", VInt (id q));
         ("question", VStr (question q));
         ("answer", VStr (answer q));
         ("category", category q);
         ("difficulty", VInt (difficulty q))].
End Question.

(** Modelled from the spec: models.py is not among the sources.  A Category
    has a store-assigned integer [id] and a display string [type]. *)
Module Category.
Record t : Type := Build {
  id : Z;
  type : string
}.
End Category.

(** Modelled from the spec: the relational store behind models.py.  It holds
    the rows of both tables and the next id it will assign; ids are not used
    again after a deletion. *)
Record Store : Type := {
  questions : list Question.t;
  categories : list Category.t;
  next_id : Z
}.

(** ** Exceptions and handler computations *)

(** What a handler can raise: [abort(status)] raises an HTTP exception; any
    other Python or database error is an [Error]. *)
Inductive exn : Type :=
| HTTPException (status : Z)
| Error (name : string).

Inductive outcome (A : Type) : Type :=
| Return (a : A)
| Raise (e : exn).
Arguments Return {A} a.
Arguments Raise {A} e.

(** A handler reads and writes the store and returns or raises. *)
Definition M (A : Type) : Type := Store -> outcome A * Store.

Definition ret {A : Type} (a : A) : M A := fun st => (Return a, st).

Definition bind {A B : Type} (m : M A) (k : A -> M B) : M B :=
  fun st =>
    match m st with
    | (Return a, st') => k a st'
    | (Raise e, st') => (Raise e, st')
    end.

Definition raise {A : Type} (e : exn) : M A := fun st => (Raise e, st).

(** [abort(status)]. *)
Definition abort {A : Type} (status : Z) : M A := raise (HTTPException status).

(** [try: m  except: h]: a bare [except] catches every exception, the one
    [abort] raises included. *)
Definition try_except {A : Type} (m h : M A) : M A :=
  fun st =>
    match m st with
    | (Return a, st') => (Return a, st')
    | (Raise _, st') => h st'
    end.

Definition get_store : M Store := fun st => (Return st, st).
Definition put_store (st : Store) : M unit := fun _ => (Return tt, st).

Declare Scope handler_scope.
Delimit Scope handler_scope with handler.
Notation "x <- m ;; k" := (bind m (fun x => k))
  (at level 61, m at next level, right associativity) : handler_scope.
Notation "m ;;; k" := (bind m (fun _ => k))
  (at level 61, right associativity) : handler_scope.
Local Open Scope handler_scope.

(** ** Operations on request bodies *)

(** [body.get(key, default)]: only a dict has [get]. *)
Definition py_get (body : value) (key : string) (default : value) : M value :=
  match body with
  | VDict d => ret (dict_get_or key d default)
  | _ => raise (Error "AttributeError")
  end.

(** [key in body]. *)
Definition py_in (key : string) (body : value) : M bool :=
  match body with
  | VDict d => ret (dict_has key d)
  | VList l => ret (existsb (fun v => eq_str v key) l)
  | VStr s => ret (substringb key s)
  | _ => raise (Error "TypeError")
  end.

(** [obj[key]] for a string [key]. *)
Definition py_getitem (obj : value) (key : string) : M value :=
  match obj with
  | VDict d =>
      match dict_get key d with
      | Some v => ret v
      | None => raise (Error "KeyError")
      end
  | _ => raise (Error "TypeError")
  end.

(** ** Queries *)

(** [query.one_or_none()]. *)
Definition one_or_none {A : Type} (rows : list A) : M (option A) :=
  match rows with
  | [] => ret None
  | [r] => ret (Some r)
  | _ :: _ :: _ => raise (Error "MultipleResultsFound")
  end.

(** [Question.query.order_by(Question.difficulty)]: ascending, rows of equal
    difficulty in the order the table holds them. *)
Fixpoint insert_by_difficulty (q : Question.t) (l : list Question.t)
  : list Question.t :=
  match l with
  | [] => [q]
  | r :: l' =>
      if Question.difficulty q <=? Question.difficulty r then q :: r :: l'
      else r :: insert_by_difficulty q l'
  end.

Definition order_by_difficulty (l : list Question.t) : list Question.t :=
  fold_right insert_by_difficulty [] l.

(** [Question.id.notin_(ids)] as a row predicate. *)
Definition id_notin (ids : list Z) (q : Question.t) : bool :=
  negb (existsb (Z.eqb (Question.id q)) ids).

(** The ids of a list of ints; [None] for any other value. *)
Fixpoint int_list (l : list value) : option (list Z) :=
  match l with
  | [] => Some []
  | VInt n :: l' =>
      match int_list l' with
      | Some ns => Some (n :: ns)
      | None => None
      end
  | _ :: _ => None
  end.

(** What the store can compare a text column with: a string, or null, which
    the query turns into [IS NULL]; with anything else the query raises. *)
Definition text_operand (v : value) : bool :=
  match v with
  | VStr _ | VNone => true
  | _ => false
  end.

(** ** Requests and responses *)

(** A request: the JSON body, the [page] query parameter read with
    [type=int] ([None] when it is absent or is not an integer), and the
    number the random generator draws while the request is served. *)
Record Request : Type := {
  json : value;
  page_arg : option Z;
  draw : Z
}.

(** [request.args.get('page', 1, type=int)]. *)
Definition args_get_page (req : Request) : Z :=
  match page_arg req with
  | Some p => p
  | None => 1
  end.

(** [random.randrange(0, n)] for [n > 0]. *)
Definition randrange (req : Request) (n : Z) : Z := draw req mod n.

Record Response : Type := {
  status : Z;
  body : value
}.

Definition QUESTIONS_PER_PAGE : Z := 10.

(** Utility method for pagination. *)
Definition paginate_elements (req : Request) (elements : list Question.t)
  : list value :=
  let page := args_get_page req in
  let start := (page - 1) * QUESTIONS_PER_PAGE in
  let end_ := start + QUESTIONS_PER_PAGE in
  let formatted_elements := map Question.format elements in
  py_slice formatted_elements start end_.

(** The [<int:name>] converter of a route: a path segment that is an
    unsigned decimal number reaches the view function as that number; for any
    other segment, a number with a minus sign among them, the route does not
    match and the router raises the 404 that the handler registered for 404
    answers.  The segment is given by the integer it denotes. *)
Definition int_route (view : Z -> M value) (segment : Z) : M value :=
  if segment <? 0 then abort 404 else view segment.

(** ** The store operations of models.py *)

(** [categories_dict[category.id] = category.type]; jsonify writes the
    integer key as a string. *)
Fixpoint dict_set (k : string) (v : value) (d : list (string * value))
  : list (string * value) :=
  match d with
  | [] => [(k, v)]
  | (k', v') :: d' =>
      if (k' =? k)%string then (k, v) :: d' else (k', v') :: dict_set k v d'
  end.

Definition categories_dict_of (cats : list Category.t)
  : list (string * value) :=
  fold_left
    (fun d c => dict_set (str_int (Category.id c)) (VStr (Category.type c)) d)
    cats [].

(** Modelled from the spec: [Question.delete()] of models.py, which is not
    among the sources: the row is removed for good. *)
Definition Question_delete (q : Question.t) : M unit :=
  st <- get_store ;;
  put_store
    {| questions :=
         filter (fun r => negb (Question.id r =? Question.id q)) (questions st);
       categories := categories st;
       next_id := next_id st |}.

Section Handlers.

(** Modelled from the spec: the column values the persistence layer of
    models.py, which is not among the sources, stores for the arguments of
    [Question(question=, answer=, category=, difficulty=)]; [None] when
    persisting them fails. *)
Variable columns_of :
  value -> value -> value -> value -> option (string * string * value * Z).

(** What an f-string makes of a value that is not a [str]. *)
Variable str_other : value -> string.

(** What [Question.id.notin_] makes of an operand that is not a list of
    ints: the query layer raises, or filters by some predicate. *)
Variable notin_other : value -> outcome (Question.t -> bool).

(** What the store's lower-casing makes of a character that is not ASCII. *)
Variable store_lower : N -> N.

(** [f'{v}']. *)
Definition fstr (v : value) : string :=
  match v with
  | VStr s => s
  | _ => str_other v
  end.

(** Modelled from the spec: [Question(...)] followed by [insert()]: the
    store assigns the id and keeps the row, or raises. *)
Definition Question_insert (question answer category difficulty : value)
  : M Question.t :=
  match columns_of question answer category difficulty with
  | None => raise (Error "SQLAlchemyError")
  | Some (q, a, c, d) =>
      st <- get_store ;;
      let row := Question.Build (next_id st) q a c d in
      put_store {| questions := (questions st ++ [row])%list;
                   categories := categories st;
                   next_id := next_id st + 1 |} ;;;
      ret row
  end.

(** [Question.id.notin_(previous_questions)]. *)
Definition notin_ (previous_questions : value) : M (Question.t -> bool) :=
  match previous_questions with
  | VList l =>
      match int_list l with
      | Some ids => ret (id_notin ids)
      | None => fun st => (notin_other previous_questions, st)
      end
  | _ => fun st => (notin_other previous_questions, st)
  end.

Variable req : Request.

(** GET /api/categories *)
Definition get_categories : M value :=
  st <- get_store ;;
  let categories := categories st in
  let categories_dict := categories_dict_of categories in
  if len categories_dict =? 0 then abort 404
  else
    ret (VDict [("categories", VDict categories_dict);
                ("success", VBool true)]).

(** GET /api/questions *)
Definition get_questions : M value :=
  st <- get_store ;;
  let questions_ := order_by_difficulty (questions st) in
  let current_questions := paginate_elements req questions_ in
  let categories_dict := categories_dict_of (categories st) in
  if len current_questions =? 0 then abort 404
  else
    ret (VDict [("categories", VDict categories_dict);
                ("questions", VList current_questions);
                ("current_category", VList []);
                ("success", VBool true);
                ("questions_per_page", VInt (len current_questions));
                ("total_questions", VInt (len (questions st)))]).

(** DELETE /api/questions/<int:question_id> *)
Definition delete_question_try (question_id : Z) : M value :=
  st <- get_store ;;
  question <-
    one_or_none
      (filter (fun q => Question.id q =? question_id) (questions st)) ;;
  match question with
  | None => abort 404
  | Some q =>
      Question_delete q ;;;
      st' <- get_store ;;
      let questions_ := order_by_difficulty (questions st') in
      let current_questions := paginate_elements req questions_ in
      ret (VDict [("questions", VList current_questions);
                  ("deleted", VInt question_id);
                  ("success", VBool true);
                  ("questions_per_page", VInt (len current_questions));
                  ("total_questions", VInt (len (questions st')))])
  end.

Definition delete_question (question_id : Z) : M value :=
  try_except (delete_question_try question_id) (abort 422).

(** POST /api/questions, the branch taken when a search term is present. *)
Definition search_questions : M value :=
  search_term <- py_get (json req) "searchTerm" VNone ;;
  st <- get_store ;;
  let search_result :=
    filter
      (fun q => ilike store_lower (Question.question q)
                      ("%" ++ fstr search_term ++ "%"))
      (questions st) in
  if len search_result =? 0 then abort 404
  else
    let current_search_result := paginate_elements req search_result in
    ret (VDict [("success", VBool true);
                ("questions", VList current_search_result);
                ("total_questions", VInt (len current_search_result))]).

(** POST /api/questions, the [try] block of the other branch. *)
Definition create_question_try (question answer category difficulty : value)
  : M value :=
  q <- Question_insert question answer category difficulty ;;
  st <- get_store ;;
  let questions_ := order_by_difficulty (questions st) in
  let current_questions := paginate_elements req questions_ in
  ret (VDict [("questions", VList current_questions);
              ("question_created", VStr (Question.question q));
              ("created", VInt (Question.id q));
              ("success", VBool true);
              ("questions_per_page", VInt (len current_questions));
              ("total_questions", VInt (len (questions st)))]).

Definition create_question (body : value) : M value :=
  question <- py_get body "question" (VStr "") ;;
  answer <- py_get body "answer" (VStr "") ;;
  category <- py_get body "category" (VStr "") ;;
  difficulty <- py_get body "difficulty" (VStr "") ;;
  if eq_str question "" || eq_str answer "" || eq_str category ""
     || eq_str difficulty ""
  then abort 422
  else
    try_except (create_question_try question answer category difficulty)
               (abort 422).

(** POST /api/questions *)
Definition post_question : M value :=
  let body := json req in
  search_term <- py_get body "searchTerm" VNone ;;
  if truthy search_term then search_questions else create_question body.

(** GET /api/categories/<int:category_id>/questions *)
Definition get_questions_by_category (category_id : Z) : M value :=
  st <- get_store ;;
  category <-
    one_or_none
      (filter (fun c => Category.id c =? category_id) (categories st)) ;;
  match category with
  | None => abort 400
  | Some c =>
      let current_category := Category.type c in
      let questions_by_category :=
        filter
          (fun q =>
             value_eqb (Question.category q) (VStr (str_int (Category.id c))))
          (questions st) in
      let current_questions_by_category :=
        paginate_elements req questions_by_category in
      ret (VDict [("current_category", VStr current_category);
                  ("questions", VList current_questions_by_category);
                  ("success", VBool true);
                  ("questions_per_page",
                   VInt (len current_questions_by_category));
                  ("total_questions", VInt (len (questions st)))])
  end.

(** POST /api/quizzes: the questions the draw is made from. *)
Definition available_questions (category previous_questions : value)
  : M (list Question.t) :=
  type_ <- py_getitem category "type" ;;
  if eq_str type_ "click" then
    unseen <- notin_ previous_questions ;;
    st <- get_store ;;
    ret (filter unseen (questions st))
  else
    id_ <- py_getitem category "id" ;;
    unseen <- notin_ previous_questions ;;
    if text_operand id_ then
      st <- get_store ;;
      ret (filter unseen
             (filter (fun q => value_eqb (Question.category q) id_)
                     (questions st)))
    else raise (Error "ProgrammingError").

Definition get_random_quiz_question_try : M value :=
  let body := json req in
  has_category <- py_in "quiz_category" body ;;
  has_both <-
    (if has_category then py_in "previous_questions" body else ret false) ;;
  if negb has_both then abort 400
  else
    category <- py_get body "quiz_category" VNone ;;
    previous_questions <- py_get body "previous_questions" VNone ;;
    available <- available_questions category previous_questions ;;
    new_question <-
      (if len available >? 0 then
         match nth_error available
                 (Z.to_nat (randrange req (len available))) with
         | Some q => ret (Question.format q)
         | None => raise (Error "IndexError")
         end
       else ret VNone) ;;
    ret (VDict [("success", VBool true); ("question", new_question)]).

Definition get_random_quiz_question : M value :=
  try_except get_random_quiz_question_try (abort 400).

(** ** Error handlers *)

Definition error_body (code : Z) (message : string) : value :=
  VDict [("success", VBool false);
         ("error", VInt code);
         ("message", VStr message)].

(** The response Flask builds from what a view function returned or
    raised.  The handler registered for 500 returns its body without a
    status code; an HTTP exception with no registered handler keeps its
    own status and a page that is not JSON. *)
Definition respond (o : outcome value) : Response :=
  match o with
  | Return v => {| status := 200; body := v |}
  | Raise (HTTPException code) =>
      if code =? 400 then
        {| status := 400; body := error_body 400 "bad request" |}
      else if code =? 404 then
        {| status := 404; body := error_body 404 "resource not found" |}
      else if code =? 405 then
        {| status := 405; body := error_body 405 "method not allowed" |}
      else if code =? 422 then
        {| status := 422; body := error_body 422 "unprocessable" |}
      else if code =? 500 then
        {| status := 200; body := error_body 500 "server error" |}
      else {| status := code; body := VNone |}
  | Raise (Error _) =>
      {| status := 200; body := error_body 500 "server error" |}
  end.

(** One request served by the view function [h]. *)
Definition serve (h : M value) (st : Store) : Response * Store :=
  let (o, st') := h st in (respond o, st').

End Handlers.


(** ** Sample data *)

(** One persistence layer: texts must be strings and the difficulty an
    integer; the category is stored as it comes. *)
Definition typed_columns (question answer category difficulty : value)
  : option (string * string * value * Z) :=
  match question, answer, difficulty with
  | VStr q, VStr a, VInt d => Some (q, a, category, d)
  | _, _, _ => None
  end.

(** [str] on the scalars that are not strings. *)
Definition str_scalar (v : value) : string :=
  match v with
  | VNone => "None"
  | VBool true => "True"
  | VBool false => "False"
  | VInt n => str_int n
  | _ => ""
  end.

(** One lower-casing of the characters that are not ASCII: the capital
    letters of Latin-1 become the small ones. *)
Definition latin1_lower (c : N) : N :=
  if ((192 <=? c) && (c <=? 222) && negb (c =? 215))%N then (c + 32)%N else c.

(** A query layer that refuses every operand other than a list of ints. *)
Definition notin_refused (v : value) : outcome (Question.t -> bool) :=
  Raise (Error "ArgumentError").

(** [n] questions with ids [first], [first + 1], ..., all with the same text,
    category and difficulty. *)
Fixpoint numbered_questions (text : string) (first : Z) (n : nat)
  : list Question.t :=
  match n with
  | O => []
  | S n' =>
      Question.Build first text "yes" (VStr "1") 1
      :: numbered_questions text (first + 1) n'
  end.

Definition science : Category.t := Category.Build 1 "Science".
Definition art : Category.t := Category.Build 2 "Art".

Definition capital_question : Question.t :=
  Question.Build 1 "What is the Capital of France?" "Paris" (VStr "2") 2.
Definition abc_question : Question.t :=
  Question.Build 2 "abc" "def" (VStr "1") 1.

Definition cafe_question : Question.t :=
  Question.Build 3 "Le CAFÉ du coin" "oui" (VStr "2") 1.

(** A store with a question whose text has a capital letter outside ASCII. *)
Definition cafe_store : Store :=
  {| questions := [capital_question; cafe_question];
     categories := [science; art];
     next_id := 4 |}.

Definition small_store : Store :=
  {| questions := [capital_question; abc_question];
     categories := [science; art];
     next_id := 3 |}.

(** A store of [n] questions that all contain the letter a. *)
Definition store_of (n : nat) : Store :=
  {| questions := numbered_questions "a question" 1 n;
     categories := [science; art];
     next_id := Z.of_nat n + 1 |}.

Definition request (body : value) (page : option Z) : Request :=
  {| json := body; page_arg := page; draw := 0 |}.

(** ** Specification-side definitions *)

(** [t] occurs in [s] when letter case is ignored: the lower-cased
    characters of [t] are consecutive characters of the lower-cased [s]. *)
Definition contains_ci (store_lower : N -> N) (t s : string) : Prop :=
  exists pre post : list N,
    fold store_lower s = (pre ++ fold store_lower t ++ post)%list.

(** No character of [t] has a meaning in a LIKE pattern. *)
Fixpoint literal (t : string) : bool :=
  match t with
  | EmptyString => true
  | String c t' =>
      negb (c =? "%")%char && negb (c =? "_")%char && negb (c =? "\")%char
      && literal t'
  end.

(** A field of a JSON body is missing or is the empty string. *)
Definition missing_or_empty (key : string) (d : list (string * value)) : Prop :=
  dict_get key d = None \/ dict_get key d = Some (VStr "").

(** The [key] entry of a JSON response body. *)
Definition field (key : string) (r : Response) : option value :=
  match body r with
  | VDict d => dict_get key d
  | _ => None
  end.

(** The response of the create branch when the row is kept. *)
Definition created_body (req : Request) (st : Store) (row : Question.t)
  : value :=
  let st' := {| questions := (questions st ++ [row])%list;
                categories := categories st;
                next_id := next_id st + 1 |} in
  let current_questions :=
    paginate_elements req (order_by_difficulty (questions st')) in
  VDict [("questions", VList current_questions);
         ("question_created", VStr (Question.question row));
         ("created", VInt (Question.id row));
         ("success", VBool true);
         ("questions_per_page", VInt (len current_questions));
         ("total_questions", VInt (len (questions st')))].


(** The store once the rows with the id [question_id] are removed. *)
Definition without (question_id : Z) (st : Store) : Store :=
  {| questions :=
       filter (fun r => negb (Question.id r =? question_id)) (questions st);
     categories := categories st;
     next_id := next_id st |}.

(** The response of a delete that went through, [st] being the store it
    left. *)
Definition deleted_body (req : Request) (question_id : Z) (st : Store)
  : value :=
  let current_questions :=
    paginate_elements req (order_by_difficulty (questions st)) in
  VDict [("questions", VList current_questions);
         ("deleted", VInt question_id);
         ("success", VBool true);
         ("questions_per_page", VInt (len current_questions));
         ("total_questions", VInt (len (questions st)))].

(** A computation that leaves the store as it found it. *)
Definition readonly {A : Type} (m : M A) : Prop :=
  forall st, snd (m st) = st.

(** The store once [row] is added to the questions and the next id is
    taken. *)
Definition with_row (row : Question.t) (st : Store) : Store :=
  {| questions := (questions st ++ [row])%list;
     categories := categories st;
     next_id := next_id st + 1 |}.

(** No backslash occurs in [t]. *)
Fixpoint no_backslash (t : string) : bool :=
  match t with
  | EmptyString => true
  | String c t' => negb (c =? "\")%char && no_backslash t'
  end.

(** Ascending difficulty. *)
Definition by_difficulty (a b : Question.t) : Prop :=
  Question.difficulty a <= Question.difficulty b.

(** The ids of the questions are pairwise different and below the id the
    store assigns next. *)
Definition store_ok (st : Store) : Prop :=
  NoDup (map Question.id (questions st))
  /\ forall q, In q (questions st) -> Question.id q < next_id st.

(** * Properties *)

(** ** Slicing *)

Lemma firstn_min_length {A : Type} (k : nat) (l : list A) :
  firstn (Nat.min k (List.length l)) l = firstn k l.
Proof.
  destruct (Nat.le_ge_cases k (List.length l)) as [H|H].
  - now rewrite Nat.min_l.
  - rewrite Nat.min_r by exact H. now rewrite !firstn_all2 by lia.
Qed.

Lemma py_slice_nonneg {A : Type} (l : list A) (a b : Z) :
  0 <= a -> a <= b ->
  py_slice l a b = firstn (Z.to_nat (b - a)) (skipn (Z.to_nat a) l).
Proof.
  intros Ha Hb. unfold py_slice, slice_bound.
  destruct (Z.ltb_spec a 0); [lia|]. destruct (Z.ltb_spec b 0); [lia|].
  destruct (Z.le_gt_cases a (Z.of_nat (List.length l))) as [Hle|Hgt].
  - rewrite (Z.min_l a) by lia.
    rewrite <- (firstn_min_length (Z.to_nat (b - a))).
    f_equal. rewrite length_skipn. lia.
  - rewrite (Z.min_r a) by lia. rewrite (Z.min_r b) by lia.
    rewrite Z.sub_diag. simpl.
    rewrite (skipn_all2 l) by lia. now rewrite firstn_nil.
Qed.

Lemma py_slice_negative {A : Type} (l : list A) (a b : Z) :
  a < 0 -> b < 0 ->
  py_slice l a b =
  firstn (Z.to_nat (Z.max 0 (b + len l) - Z.max 0 (a + len l)))
         (skipn (Z.to_nat (Z.max 0 (a + len l))) l).
Proof.
  intros Ha Hb. unfold py_slice, slice_bound, len.
  destruct (Z.ltb_spec a 0); [|lia]. destruct (Z.ltb_spec b 0); [|lia].
  reflexivity.
Qed.

Lemma paginate_elements_eq (req : Request) (elements : list Question.t) :
  1 <= args_get_page req ->
  paginate_elements req elements =
  firstn 10 (skipn (Z.to_nat ((args_get_page req - 1) * 10))
                   (map Question.format elements)).
Proof.
  intros Hp. unfold paginate_elements, QUESTIONS_PER_PAGE.
  rewrite py_slice_nonneg by lia.
  replace ((args_get_page req - 1) * 10 + 10 - (args_get_page req - 1) * 10)
    with 10 by lia.
  reflexivity.
Qed.

(** C1: for a page number [p >= 1] (1 when the request names none) the
    pagination helper returns the formatted elements at offsets [(p-1)*10]
    to [(p-1)*10+9], clipped to the list; a page past the end is empty; and
    the number returned is the smaller of 10 and the number of elements left
    from the offset. *)
Theorem paginate_elements_page (req : Request) (elements : list Question.t) :
  1 <= args_get_page req ->
  (page_arg req = None -> args_get_page req = 1)
  /\ paginate_elements req elements =
     firstn 10 (skipn (Z.to_nat ((args_get_page req - 1) * 10))
                      (map Question.format elements))
  /\ (forall i : nat,
        nth_error (paginate_elements req elements) i =
        if (i <? 10)%nat
        then nth_error (map Question.format elements)
                       (Z.to_nat ((args_get_page req - 1) * 10) + i)
        else None)
  /\ (len elements <= (args_get_page req - 1) * 10 ->
      paginate_elements req elements = [])
  /\ len (paginate_elements req elements) =
     Z.min 10 (Z.max 0 (len elements - (args_get_page req - 1) * 10)).
Proof.
  intros Hp. pose proof (paginate_elements_eq req elements Hp) as E.
  split; [|split; [|split; [|split]]].
  - unfold args_get_page. now intros ->.
  - exact E.
  - intros i. rewrite E, nth_error_firstn, nth_error_skipn. reflexivity.
  - intros Hlen. rewrite E. rewrite skipn_all2; [reflexivity|].
    rewrite length_map. unfold len in Hlen. lia.
  - rewrite E. unfold len. rewrite length_firstn, length_skipn, length_map. lia.
Qed.

Lemma paginate_elements_page_witness :
  paginate_elements (request VNone (Some 2)) (numbered_questions "q" 1 13) =
  map Question.format (numbered_questions "q" 11 3).
Proof.
  destruct (paginate_elements_page (request VNone (Some 2))
              (numbered_questions "q" 1 13)) as (_ & E & _).
  - unfold args_get_page, request. simpl. lia.
  - rewrite E. reflexivity.
Defined.

(** C9: a negative page number is not rejected and need not give an empty
    page: the slice bounds [(p-1)*10] and [(p-1)*10+10] are then counted from
    the end of the list, so page -1 of 20 elements is their first ten. *)
Theorem paginate_elements_negative_page :
  (exists (req : Request) (elements : list Question.t),
      args_get_page req = -1
      /\ len elements = 20
      /\ paginate_elements req elements <> []
      /\ paginate_elements req elements =
         firstn 10 (map Question.format elements))
  /\ (forall (req : Request) (elements : list Question.t),
        args_get_page req < 0 ->
        paginate_elements req elements =
        firstn
          (Z.to_nat
             (Z.max 0 ((args_get_page req - 1) * 10 + 10 + len elements)
              - Z.max 0 ((args_get_page req - 1) * 10 + len elements)))
          (skipn
             (Z.to_nat (Z.max 0 ((args_get_page req - 1) * 10 + len elements)))
             (map Question.format elements))).
Proof.
  split.
  - exists (request VNone (Some (-1))), (numbered_questions "q" 1 20).
    repeat split; try reflexivity. discriminate.
  - intros req elements Hp. unfold paginate_elements, QUESTIONS_PER_PAGE.
    rewrite py_slice_negative by lia. unfold len. rewrite length_map.
    reflexivity.
Qed.

(** ** Queries by primary key *)

Lemma filter_none {A : Type} (f : A -> bool) (l : list A) :
  (forall x, In x l -> f x = false) -> filter f l = [].
Proof.
  induction l as [|a l IH]; intros H; simpl; [reflexivity|].
  rewrite (H a) by now left. apply IH. intros x Hx. apply H. now right.
Qed.

Lemma filter_by_key {A : Type} (key : A -> Z) (l : list A) (c : A) :
  NoDup (map key l) -> In c l ->
  filter (fun x => key x =? key c) l = [c].
Proof.
  induction l as [|a l IH]; intros Hnd Hin; [destruct Hin|].
  simpl in Hnd. inversion Hnd as [|? ? Hnotin Hnd']; subst.
  simpl. destruct Hin as [->|Hin].
  - rewrite Z.eqb_refl. f_equal. apply filter_none.
    intros x Hx. apply Z.eqb_neq. intros E. apply Hnotin. rewrite <- E.
    now apply in_map.
  - destruct (Z.eqb_spec (key a) (key c)) as [E|_].
    + exfalso. apply Hnotin. rewrite E. now apply in_map.
    + now apply IH.
Qed.

(** ** DELETE /api/questions/<id> *)

(** A route with an [<int:...>] segment is its view function for an
    unsigned number and the router's 404 for anything else. *)
Lemma int_route_unsigned (view : Z -> M value) (segment : Z) :
  0 <= segment -> int_route view segment = view segment.
Proof.
  intros H. unfold int_route. destruct (Z.ltb_spec segment 0); [lia|easy].
Qed.

Lemma int_route_signed (view : Z -> M value) (segment : Z) (st : Store) :
  segment < 0 -> int_route view segment st = (Raise (HTTPException 404), st).
Proof.
  intros H. unfold int_route. destruct (Z.ltb_spec segment 0); [easy|lia].
Qed.

(** C2: deleting a question id, an unsigned number as the route requires,
    that no question has answers 422, not 404: the [try] block raises the
    404, the bare [except] catches it and aborts with 422; the store is left
    as it was. *)
Theorem delete_question_absent_422
  (req : Request) (st : Store) (question_id : Z) :
  0 <= question_id ->
  (forall q, In q (questions st) -> Question.id q <> question_id) ->
  let r := serve (int_route (delete_question req) question_id) st in
  delete_question_try req question_id st = (Raise (HTTPException 404), st)
  /\ status (fst r) = 422
  /\ status (fst r) <> 404
  /\ snd r = st.
Proof.
  intros Hid Habsent r. subst r.
  assert (E : delete_question_try req question_id st
              = (Raise (HTTPException 404), st)).
  { unfold delete_question_try, bind, get_store.
    rewrite filter_none; [reflexivity|].
    intros q Hq. apply Z.eqb_neq. now apply Habsent. }
  rewrite (int_route_unsigned _ _ Hid).
  unfold serve, delete_question, try_except. rewrite E. simpl.
  repeat split; discriminate.
Qed.

Lemma delete_question_absent_422_witness :
  status (fst (serve (int_route (delete_question (request VNone None)) 7)
                     small_store))
  = 422.
Proof.
  apply (delete_question_absent_422 (request VNone None) small_store 7).
  - lia.
  - simpl. intros q [<-|[<-|[]]]; simpl; lia.
Defined.

(** ** GET /api/categories/<id>/questions *)

(** C4: for a category that exists, [total_questions] of the success
    response is the number of all questions in the store, whatever the
    number of questions in the category. *)
Theorem by_category_total_is_global
  (req : Request) (st : Store) (category_id : Z) (c : Category.t) :
  NoDup (map Category.id (categories st)) ->
  In c (categories st) ->
  Category.id c = category_id ->
  let r := fst (serve (get_questions_by_category req category_id) st) in
  status r = 200
  /\ field "success" r = Some (VBool true)
  /\ field "current_category" r = Some (VStr (Category.type c))
  /\ field "total_questions" r = Some (VInt (len (questions st))).
Proof.
  intros Hnd Hin Hid r. subst r category_id.
  unfold serve, get_questions_by_category, bind, get_store.
  rewrite (filter_by_key Category.id (categories st) c Hnd Hin).
  simpl. repeat split.
Qed.

Lemma by_category_total_is_global_witness :
  field "total_questions"
    (fst (serve (get_questions_by_category (request VNone None) 2)
                small_store))
  = Some (VInt 2)
  /\ len (filter (fun q => value_eqb (Question.category q) (VStr "2"))
                 (questions small_store)) = 1.
Proof.
  split; [|reflexivity].
  apply (by_category_total_is_global (request VNone None) small_store 2 art).
  - simpl. repeat constructor; simpl; intuition discriminate.
  - simpl. auto.
  - reflexivity.
Defined.

(** C6: a category id, an unsigned number as the route requires, that no
    category has makes the route fail with 400, neither 404 nor a success
    with no questions. *)
Theorem by_category_unknown_400
  (req : Request) (st : Store) (category_id : Z) :
  0 <= category_id ->
  (forall c, In c (categories st) -> Category.id c <> category_id) ->
  let r := serve (int_route (get_questions_by_category req) category_id) st in
  get_questions_by_category req category_id st
  = (Raise (HTTPException 400), st)
  /\ status (fst r) = 400
  /\ status (fst r) <> 404
  /\ status (fst r) <> 200.
Proof.
  intros Hid Habsent r. subst r.
  assert (E : get_questions_by_category req category_id st
              = (Raise (HTTPException 400), st)).
  { unfold get_questions_by_category, bind, get_store.
    rewrite filter_none; [reflexivity|].
    intros c Hc. apply Z.eqb_neq. now apply Habsent. }
  split; [exact E|]. rewrite (int_route_unsigned _ _ Hid).
  unfold serve. rewrite E. simpl. repeat split; discriminate.
Qed.

Lemma by_category_unknown_400_witness :
  status
    (fst (serve (int_route (get_questions_by_category (request VNone None)) 9)
                small_store)) = 400.
Proof.
  apply (by_category_unknown_400 (request VNone None) small_store 9).
  - lia.
  - simpl. intros c [<-|[<-|[]]]; simpl; lia.
Defined.

(** ** POST /api/questions *)

Section PostQuestion.

Variable columns_of :
  value -> value -> value -> value -> option (string * string * value * Z).
Variable str_other : value -> string.
Variable store_lower : N -> N.
Variable req : Request.

Lemma eq_str_empty_iff (key : string) (d : list (string * value)) :
  eq_str (dict_get_or key d (VStr "")) "" = true <-> missing_or_empty key d.
Proof.
  unfold missing_or_empty, dict_get_or.
  destruct (dict_get key d) as [v|]; simpl.
  - split.
    + destruct v; simpl; try discriminate.
      intros E. apply String.eqb_eq in E. subst. now right.
    + intros [E|E]; [discriminate|]. now inversion E.
  - split; auto.
Qed.

Lemma create_question_dict (st : Store) (d : list (string * value)) :
  create_question columns_of req (VDict d) st =
  let question := dict_get_or "question" d (VStr "") in
  let answer := dict_get_or "answer" d (VStr "") in
  let category := dict_get_or "category" d (VStr "") in
  let difficulty := dict_get_or "difficulty" d (VStr "") in
  if eq_str question "" || eq_str answer "" || eq_str category ""
     || eq_str difficulty ""
  then (Raise (HTTPException 422), st)
  else
    match columns_of question answer category difficulty with
    | None => (Raise (HTTPException 422), st)
    | Some (q, a, c, df) =>
        let row := Question.Build (next_id st) q a c df in
        (Return (created_body req st row),
         {| questions := (questions st ++ [row])%list;
            categories := categories st;
            next_id := next_id st + 1 |})
    end.
Proof.
  unfold create_question, py_get, bind, ret. cbv zeta.
  destruct (eq_str (dict_get_or "question" d (VStr "")) ""
            || eq_str (dict_get_or "answer" d (VStr "")) ""
            || eq_str (dict_get_or "category" d (VStr "")) ""
            || eq_str (dict_get_or "difficulty" d (VStr "")) "");
    [reflexivity|].
  unfold try_except, create_question_try, Question_insert, bind.
  destruct (columns_of _ _ _ _) as [[[[q a] c] df]|]; reflexivity.
Qed.

Lemma post_question_create (st : Store) (d : list (string * value)) :
  json req = VDict d ->
  truthy (dict_get_or "searchTerm" d VNone) = false ->
  post_question columns_of str_other store_lower req st
  = create_question columns_of req (VDict d) st.
Proof.
  intros Hd Hfalsy. unfold post_question, py_get, bind, ret.
  rewrite Hd, Hfalsy. reflexivity.
Qed.

End PostQuestion.

(** C7: without a (non-empty) search term the request fails with 422 exactly
    when one of [question], [answer], [category], [difficulty] is missing or
    the empty string, or the insert fails; otherwise the response reports
    the stored text as [question_created], the id the store assigned as
    [created] and [success: true], and the store holds the new row. *)
Theorem create_question_validation
  (columns_of :
     value -> value -> value -> value -> option (string * string * value * Z))
  (str_other : value -> string) (store_lower : N -> N)
  (req : Request) (st : Store) (d : list (string * value)) :
  json req = VDict d ->
  truthy (dict_get_or "searchTerm" d VNone) = false ->
  let r := serve (post_question columns_of str_other store_lower req) st in
  let inserted :=
    columns_of (dict_get_or "question" d (VStr ""))
               (dict_get_or "answer" d (VStr ""))
               (dict_get_or "category" d (VStr ""))
               (dict_get_or "difficulty" d (VStr "")) in
  let incomplete :=
    missing_or_empty "question" d \/ missing_or_empty "answer" d
    \/ missing_or_empty "category" d \/ missing_or_empty "difficulty" d in
  (status (fst r) = 422 <-> incomplete \/ inserted = None)
  /\ (forall q a c df,
        ~ incomplete ->
        inserted = Some (q, a, c, df) ->
        status (fst r) = 200
        /\ field "question_created" (fst r) = Some (VStr q)
        /\ field "created" (fst r) = Some (VInt (next_id st))
        /\ field "success" (fst r) = Some (VBool true)
        /\ questions (snd r)
           = (questions st ++ [Question.Build (next_id st) q a c df])%list).
Proof.
  intros Hd Hfalsy r inserted incomplete.
  assert (Hinc : eq_str (dict_get_or "question" d (VStr "")) ""
                 || eq_str (dict_get_or "answer" d (VStr "")) ""
                 || eq_str (dict_get_or "category" d (VStr "")) ""
                 || eq_str (dict_get_or "difficulty" d (VStr "")) "" = true
                 <-> incomplete).
  { unfold incomplete. rewrite !orb_true_iff, !eq_str_empty_iff. tauto. }
  subst r. unfold serve.
  rewrite (post_question_create columns_of str_other store_lower req st d Hd
      Hfalsy).
  rewrite create_question_dict. cbv zeta. fold inserted.
  destruct (eq_str (dict_get_or "question" d (VStr "")) ""
            || eq_str (dict_get_or "answer" d (VStr "")) ""
            || eq_str (dict_get_or "category" d (VStr "")) ""
            || eq_str (dict_get_or "difficulty" d (VStr "")) "") eqn:Einc.
  - assert (Hi : incomplete) by now apply Hinc.
    split; [simpl; tauto|]. intros q a c df Hn. contradiction.
  - assert (Hi : ~ incomplete).
    { intros Hi. apply Hinc in Hi. discriminate. }
    destruct inserted as [[[[q a] c] df]|] eqn:Eins.
    + split.
      * simpl. split; [discriminate|]. intros [H|H];
          [contradiction|discriminate].
      * intros q' a' c' df' _ E. inversion E; subst. simpl. repeat split.
    + split.
      * simpl. split; auto.
      * intros q a c df _ E. discriminate.
Qed.

Lemma create_question_validation_witness :
  let body := VDict [("question", VStr "Who?"); ("answer", VStr "Me");
                     ("category", VStr "1"); ("difficulty", VInt 3)] in
  let r := serve (post_question typed_columns str_scalar latin1_lower (request
      body None))
                 small_store in
  status (fst r) = 200
  /\ field "question_created" (fst r) = Some (VStr "Who?")
  /\ field "created" (fst r) = Some (VInt 3)
  /\ field "success" (fst r) = Some (VBool true)
  /\ questions (snd r)
     = (questions small_store
          ++ [Question.Build 3 "Who?" "Me" (VStr "1") 3])%list.
Proof.
  cbv zeta.
  refine (proj2 (create_question_validation typed_columns str_scalar
      latin1_lower
                   (request (VDict [("question", VStr "Who?");
                                    ("answer", VStr "Me");
                                    ("category", VStr "1");
                                    ("difficulty", VInt 3)]) None)
                   small_store
                   [("question", VStr "Who?"); ("answer", VStr "Me");
                    ("category", VStr "1"); ("difficulty", VInt 3)]
                   eq_refl eq_refl)
                "Who?" "Me" (VStr "1") 3 _ eq_refl).
  unfold missing_or_empty. simpl.
  intros [[H|H]|[[H|H]|[[H|H]|[H|H]]]]; discriminate.
Defined.

(** C10: a [searchTerm] bound to the empty string, or to any other falsy
    value, sends the request down the create branch: the answer is never the
    404 of the search branch, and it is 422 when none of the four fields is
    supplied. *)
Theorem falsy_search_term_creates
  (columns_of :
     value -> value -> value -> value -> option (string * string * value * Z))
  (str_other : value -> string) (store_lower : N -> N)
  (req : Request) (st : Store) (d : list (string * value)) (v : value) :
  json req = VDict d ->
  dict_get "searchTerm" d = Some v ->
  truthy v = false ->
  post_question columns_of str_other store_lower req st
  = create_question columns_of req (VDict d) st
  /\ status (fst (serve (post_question columns_of str_other store_lower req)
      st)) <> 404
  /\ (dict_get "question" d = None -> dict_get "answer" d = None ->
      dict_get "category" d = None -> dict_get "difficulty" d = None ->
      status (fst (serve (post_question columns_of str_other store_lower req)
          st)) = 422).
Proof.
  intros Hd Hv Hfalsy.
  assert (Hf : truthy (dict_get_or "searchTerm" d VNone) = false).
  { unfold dict_get_or. now rewrite Hv. }
  pose proof (post_question_create columns_of str_other store_lower req st d Hd
      Hf) as E.
  split; [exact E|]. unfold serve. rewrite E, create_question_dict. cbv zeta.
  split.
  - destruct (_ || _); [simpl; discriminate|].
    destruct (columns_of _ _ _ _) as [[[[q a] c] df]|]; simpl; discriminate.
  - intros Hq _ _ _. unfold dict_get_or at 1. rewrite Hq. reflexivity.
Qed.

Lemma falsy_search_term_creates_witness :
  status
    (fst (serve (post_question typed_columns str_scalar latin1_lower
                   (request (VDict [("searchTerm", VStr "")]) None))
                small_store)) = 422.
Proof.
  refine (proj2 (proj2 (falsy_search_term_creates typed_columns str_scalar
      latin1_lower
                          (request (VDict [("searchTerm", VStr "")]) None)
                          small_store [("searchTerm", VStr "")] (VStr "")
                          eq_refl eq_refl eq_refl))
                eq_refl eq_refl eq_refl eq_refl).
Defined.

(** ** Searching *)

(** *** The characters of a string *)

Lemma chars_ascii (b : ascii) (r : string) :
  (N_of_ascii b < 128)%N -> chars (String b r) = N_of_ascii b :: chars r.
Proof.
  intros H. cbn [chars]. cbv zeta.
  destruct (N.ltb_spec (N_of_ascii b) 192); [reflexivity|lia].
Qed.

(** The first character of a string is an ASCII byte of its own or is not
    ASCII, and the characters after it are those of a suffix. *)
Lemma chars_step (b0 : ascii) (r0 : string) :
  exists c mid r',
    chars (String b0 r0) = c :: chars r'
    /\ r0 = mid ++ r'
    /\ (((N_of_ascii b0 < 128)%N /\ c = N_of_ascii b0) \/ (128 <= c)%N).
Proof.
  assert (Hs : exists c mid r',
             N_of_ascii b0 :: chars r0 = c :: chars r'
             /\ r0 = mid ++ r'
             /\ (((N_of_ascii b0 < 128)%N /\ c = N_of_ascii b0)
                 \/ (128 <= c)%N)).
  { exists (N_of_ascii b0), "", r0. split; [reflexivity|]. split;
      [reflexivity|].
    destruct (N.lt_ge_cases (N_of_ascii b0) 128); auto. }
  cbn [chars]. cbv zeta.
  destruct (N.ltb_spec (N_of_ascii b0) 192); [exact Hs|].
  destruct r0 as [|b1 r1]; [exact Hs|].
  destruct (continuation b1); cbn [negb]; [|exact Hs].
  destruct (N.ltb_spec (N_of_ascii b0) 224).
  { destruct (N.leb_spec 128 ((N_of_ascii b0 - 192) * 64 + low6 b1)%N);
      [|exact Hs].
    eexists _, (String b1 ""), r1. split; [reflexivity|]. split; [reflexivity|].
    now right. }
  destruct r1 as [|b2 r2]; [exact Hs|].
  destruct (continuation b2); cbn [negb]; [|exact Hs].
  destruct (N.ltb_spec (N_of_ascii b0) 240).
  { destruct (N.leb_spec 2048
                ((N_of_ascii b0 - 224) * 4096 + low6 b1 * 64 + low6 b2)%N);
      [|exact Hs].
    eexists _, (String b1 (String b2 "")), r2.
    split; [reflexivity|]. split; [reflexivity|]. right. lia. }
  destruct r2 as [|b3 r3]; [exact Hs|].
  destruct (continuation b3); cbn [negb]; [|exact Hs].
  destruct (_ && _)%bool eqn:E; [|exact Hs].
  apply andb_true_iff in E. destruct E as [E _]. apply N.leb_le in E.
  eexists _, (String b1 (String b2 (String b3 ""))), r3.
  split; [reflexivity|]. split; [reflexivity|]. right. lia.
Qed.

(** A byte that is no continuation byte starts a character wherever it
    stands. *)
Lemma chars_app (t : string) (b : ascii) (u : string) :
  continuation b = false ->
  chars (t ++ String b u) = (chars t ++ chars (String b u))%list.
Proof.
  intros Hb.
  assert (H : forall n t, (String.length t <= n)%nat ->
              chars (t ++ String b u) = (chars t ++ chars (String b u))%list).
  { clear t. induction n as [|n IH]; intros t Hn.
    - destruct t; [reflexivity|simpl in Hn; lia].
    - destruct t as [|b0 t0]; [reflexivity|].
      assert (Hs : N_of_ascii b0 :: chars (t0 ++ String b u)
                   = ((N_of_ascii b0 :: chars t0) ++ chars (String b u))%list).
      { simpl. f_equal. apply IH. simpl in Hn. lia. }
      cbn [append]. cbn [chars]. cbv zeta.
      destruct (N.ltb_spec (N_of_ascii b0) 192); [exact Hs|].
      destruct t0 as [|b1 t1].
      { cbn [append] in *. rewrite Hb. exact Hs. }
      cbn [append] in *.
      destruct (continuation b1); cbn [negb]; [|exact Hs].
      destruct (N.ltb_spec (N_of_ascii b0) 224).
      { destruct (N.leb_spec 128 ((N_of_ascii b0 - 192) * 64 + low6 b1)%N);
          [|exact Hs].
        simpl. f_equal. apply IH. simpl in Hn. lia. }
      destruct t1 as [|b2 t2].
      { cbn [append] in *. rewrite Hb. exact Hs. }
      cbn [append] in *.
      destruct (continuation b2); cbn [negb]; [|exact Hs].
      destruct (N.ltb_spec (N_of_ascii b0) 240).
      { destruct (N.leb_spec 2048
                ((N_of_ascii b0 - 224) * 4096 + low6 b1 * 64 + low6 b2)%N);
          [|exact Hs].
        simpl. f_equal. apply IH. simpl in Hn. lia. }
      destruct t2 as [|b3 t3].
      { cbn [append] in *. rewrite Hb. exact Hs. }
      cbn [append] in *.
      destruct (continuation b3); cbn [negb]; [|exact Hs].
      destruct (_ && _)%bool; [|exact Hs].
      simpl. f_equal. apply IH. simpl in Hn. lia. }
  now apply (H (String.length t)).
Qed.

(** The pattern of the search: the term between two [%]. *)
Lemma fold_pattern (store_lower : N -> N) (term : string) :
  fold store_lower ("%" ++ term ++ "%")
  = (37%N :: fold store_lower term ++ [37%N])%list.
Proof.
  unfold fold. change ("%" ++ term ++ "%") with (String "%" (term ++ "%")).
  rewrite chars_ascii by (simpl; lia).
  rewrite chars_app by reflexivity.
  rewrite map_cons, map_app. reflexivity.
Qed.

(** Lower-casing makes no pattern character and loses none. *)
Lemma fold_char_pattern (store_lower : N -> N) (c x : N) :
  pattern_char x = true -> (fold_char store_lower c = x <-> c = x).
Proof.
  intros Hx. unfold pattern_char in Hx.
  rewrite !orb_true_iff, !N.eqb_eq in Hx. unfold fold_char.
  destruct (N.ltb_spec c 128).
  - destruct (N.leb_spec 65 c); destruct (N.leb_spec c 90); simpl; lia.
  - destruct (pattern_char (store_lower c)) eqn:E.
    + lia.
    + split; [|lia]. intros E'. rewrite E' in E.
      unfold pattern_char in E. rewrite !orb_false_iff, !N.eqb_neq in E. lia.
Qed.

Lemma N_of_ascii_eqb (b c : ascii) :
  (N_of_ascii b =? N_of_ascii c)%N = (b =? c)%char.
Proof.
  destruct (Ascii.eqb_spec b c) as [->|Hne].
  - apply N.eqb_refl.
  - apply N.eqb_neq. intros E. apply Hne.
    now rewrite <- (ascii_N_embedding b), <- (ascii_N_embedding c), E.
Qed.

Lemma length_suffix (mid r : string) :
  (String.length r <= String.length (mid ++ r))%nat.
Proof. induction mid as [|c mid IH]; simpl; lia. Qed.

Lemma literal_suffix (mid r : string) :
  literal (mid ++ r) = true -> literal r = true.
Proof.
  induction mid as [|c mid IH]; simpl; [auto|].
  rewrite !andb_true_iff. intros [_ H]. now apply IH.
Qed.

Lemma no_backslash_suffix (mid r : string) :
  no_backslash (mid ++ r) = true -> no_backslash r = true.
Proof.
  induction mid as [|c mid IH]; simpl; [auto|].
  rewrite !andb_true_iff. intros [_ H]. now apply IH.
Qed.

(** A term without pattern characters has none once it is lower-cased. *)
Lemma literal_fold (store_lower : N -> N) (t : string) :
  literal t = true ->
  forallb (fun c => negb (pattern_char c)) (fold store_lower t) = true.
Proof.
  assert (H : forall n t, (String.length t <= n)%nat -> literal t = true ->
              forallb (fun c => negb (pattern_char c)) (fold store_lower t)
              = true).
  { clear t. induction n as [|n IH]; intros t Hn Hl.
    - destruct t; [reflexivity|simpl in Hn; lia].
    - destruct t as [|b0 r0]; [reflexivity|].
      destruct (chars_step b0 r0) as (c & mid & r' & Ec & Er & Hc).
      unfold fold. rewrite Ec. simpl map. simpl forallb.
      simpl in Hl. rewrite !andb_true_iff, !negb_true_iff in Hl.
      destruct Hl as [[[H1 H2] H3] Hl].
      apply andb_true_iff. split.
      + apply negb_true_iff.
        destruct (pattern_char (fold_char store_lower c)) eqn:E;
          [|reflexivity].
        apply (fold_char_pattern store_lower c) in E as E'.
        assert (Ex : c = fold_char store_lower c) by (now apply E').
        rewrite <- Ex in E. unfold pattern_char in E.
        destruct Hc as [[_ ->]|Hc].
        * change 37%N with (N_of_ascii "%") in E.
          change 95%N with (N_of_ascii "_") in E.
          change 92%N with (N_of_ascii "\") in E.
          rewrite !N_of_ascii_eqb, H1, H2, H3 in E. discriminate.
        * rewrite !orb_true_iff, !N.eqb_eq in E. lia.
      + apply IH.
        * subst r0. simpl in Hn. pose proof (length_suffix mid r'). lia.
        * subst r0. now apply literal_suffix in Hl.
  }
  now apply (H (String.length t)).
Qed.

(** A term without backslash has none once it is lower-cased. *)
Lemma no_backslash_fold (store_lower : N -> N) (t : string) :
  no_backslash t = true ->
  forallb (fun c => negb (c =? 92)%N) (fold store_lower t) = true.
Proof.
  assert (H : forall n t, (String.length t <= n)%nat ->
              no_backslash t = true ->
              forallb (fun c => negb (c =? 92)%N) (fold store_lower t)
              = true).
  { clear t. induction n as [|n IH]; intros t Hn Hl.
    - destruct t; [reflexivity|simpl in Hn; lia].
    - destruct t as [|b0 r0]; [reflexivity|].
      destruct (chars_step b0 r0) as (c & mid & r' & Ec & Er & Hc).
      unfold fold. rewrite Ec. simpl map. simpl forallb.
      simpl in Hl. rewrite !andb_true_iff, !negb_true_iff in Hl.
      destruct Hl as [H3 Hl].
      apply andb_true_iff. split.
      + apply negb_true_iff. apply N.eqb_neq. intros E.
        apply (fold_char_pattern store_lower c 92%N) in E; [|reflexivity].
        destruct Hc as [[_ Ec']|Hc]; [|lia].
        rewrite E in Ec'. change 92%N with (N_of_ascii "\") in Ec'.
        assert (Eb : (N_of_ascii b0 =? N_of_ascii "\")%N = true)
          by (apply N.eqb_eq; congruence).
        rewrite N_of_ascii_eqb, H3 in Eb. discriminate.
      + apply IH.
        * subst r0. simpl in Hn. pose proof (length_suffix mid r'). lia.
        * subst r0. now apply no_backslash_suffix in Hl.
  }
  now apply (H (String.length t)).
Qed.

(** *** LIKE *)

Lemma like_star_iff (k : list N -> bool) (s : list N) :
  like_star k s = true <-> exists s1 s2, s = (s1 ++ s2)%list /\ k s2 = true.
Proof.
  induction s as [|c s IH]; simpl.
  - rewrite orb_false_r. split.
    + intros H. now exists [], [].
    + intros (s1 & s2 & E & H). destruct s1; [|discriminate].
      simpl in E. now subst.
  - rewrite orb_true_iff, IH. split.
    + intros [H|(s1 & s2 & E & H)].
      * now exists [], (c :: s).
      * exists (c :: s1), s2. simpl. now rewrite E.
    + intros (s1 & s2 & E & H). destruct s1 as [|x s1]; simpl in E.
      * left. now subst.
      * right. inversion E. now exists s1, s2.
Qed.

Lemma like_star_here (k : list N -> bool) (s : list N) :
  k s = true -> like_star k s = true.
Proof. intros H. apply like_star_iff. now exists [], s. Qed.

Lemma like_literal (t p s : list N) :
  forallb (fun c => negb (pattern_char c)) t = true ->
  (like (t ++ p) s = true
   <-> exists s2, s = (t ++ s2)%list /\ like p s2 = true).
Proof.
  revert s. induction t as [|c t IH]; intros s Hlit.
  - simpl. split; [intros H; now exists s|now intros (s2 & -> & H)].
  - simpl in Hlit. apply andb_true_iff in Hlit. destruct Hlit as [Hc Ht].
    apply negb_true_iff in Hc. unfold pattern_char in Hc.
    rewrite !orb_false_iff in Hc. destruct Hc as [[H1 H2] H3].
    cbn [app like]. rewrite H1, H2, H3.
    destruct s as [|a s].
    + split; [discriminate|]. now intros (s2 & E & _).
    + rewrite andb_true_iff, (IH s Ht). split.
      * intros [E (s2 & -> & H)]. apply N.eqb_eq in E. subst.
        now exists s2.
      * intros (s2 & E & H). inversion E. subst. split.
        -- apply N.eqb_refl.
        -- now exists s2.
Qed.

Lemma like_percent (s : list N) : like [37%N] s = true.
Proof.
  cbn [like]. change (37 =? 37)%N with true. cbv iota.
  apply like_star_iff. exists s, []. split.
  - now rewrite app_nil_r.
  - reflexivity.
Qed.

(** A pattern without backslash matches itself. *)
Lemma like_self (t p s : list N) :
  forallb (fun c => negb (c =? 92)%N) t = true ->
  like p s = true -> like (t ++ p) (t ++ s) = true.
Proof.
  intros Ht Hp. induction t as [|c t IH]; [exact Hp|].
  simpl in Ht. apply andb_true_iff in Ht. destruct Ht as [Hc Ht].
  apply negb_true_iff in Hc. specialize (IH Ht).
  cbn [app like]. destruct (c =? 37)%N.
  - cbn [like_star]. apply orb_true_iff. right. now apply like_star_here.
  - destruct (c =? 95)%N; [exact IH|].
    rewrite Hc, N.eqb_refl. exact IH.
Qed.

Lemma ilike_pattern (store_lower : N -> N) (term s : string) :
  ilike store_lower s ("%" ++ term ++ "%")
  = like_star (like (fold store_lower term ++ [37%N])) (fold store_lower s).
Proof. unfold ilike. rewrite fold_pattern. reflexivity. Qed.

(** For a term free of pattern characters, the query of the search branch
    is the case-insensitive substring test. *)
Lemma ilike_contains (store_lower : N -> N) (term s : string) :
  literal term = true ->
  (ilike store_lower s ("%" ++ term ++ "%") = true
   <-> contains_ci store_lower term s).
Proof.
  intros Hlit. rewrite ilike_pattern, like_star_iff. unfold contains_ci.
  pose proof (literal_fold store_lower term Hlit) as Hf. split.
  - intros (s1 & s2 & E & H). apply like_literal in H; [|exact Hf].
    destruct H as (s3 & -> & _). now exists s1, s3.
  - intros (pre & post & E).
    exists pre, (fold store_lower term ++ post)%list. split; [exact E|].
    apply like_literal; [exact Hf|].
    exists post. split; [reflexivity|apply like_percent].
Qed.

(** Without a backslash in the term, the wild cards only add matches. *)
Lemma contains_ci_ilike (store_lower : N -> N) (term s : string) :
  no_backslash term = true ->
  contains_ci store_lower term s ->
  ilike store_lower s ("%" ++ term ++ "%") = true.
Proof.
  intros Hnb (pre & post & E). rewrite ilike_pattern.
  apply like_star_iff. exists pre, (fold store_lower term ++ post)%list.
  split; [exact E|].
  apply like_self; [now apply no_backslash_fold|apply like_percent].
Qed.

(** A character of the term is a character of every text that contains it. *)
Lemma contains_ci_In (store_lower : N -> N) (term s : string) (c : N) :
  contains_ci store_lower term s ->
  In c (fold store_lower term) -> In c (fold store_lower s).
Proof.
  intros (pre & post & E) Hc. rewrite E.
  apply in_or_app. right. apply in_or_app. now left.
Qed.

Lemma substringb_iff (t s : string) :
  substringb t s = true <-> exists pre post, s = pre ++ t ++ post.
Proof.
  assert (Hp : forall t s, prefixb t s = true <-> exists post, s = t ++ post).
  { clear. induction t as [|c t IH]; intros s; simpl.
    - split; [now exists s|auto].
    - destruct s as [|a s].
      + split; [discriminate|]. now intros (post & E).
      + rewrite andb_true_iff, IH. split.
        * intros [E (post & ->)]. apply Ascii.eqb_eq in E. subst.
          now exists post.
        * intros (post & E). inversion E. subst. split.
          -- apply Ascii.eqb_refl.
          -- now exists post. }
  induction s as [|a s IH]; simpl; rewrite orb_true_iff.
  - rewrite Hp. split.
    + intros [(post & E)|H]; [|discriminate]. now exists "", post.
    + intros (pre & post & E). left. destruct pre; [|discriminate].
      now exists post.
  - rewrite Hp, IH. split.
    + intros [(post & E)|(pre & post & E)].
      * now exists "", post.
      * exists (String a pre), post. simpl. now rewrite E.
    + intros (pre & post & E). destruct pre as [|x pre]; simpl in E.
      * left. now exists post.
      * right. inversion E. now exists pre, post.
Qed.

Lemma search_questions_dict
  (str_other : value -> string) (store_lower : N -> N)
  (req : Request) (st : Store)
  (d : list (string * value)) (term : string) :
  json req = VDict d ->
  dict_get "searchTerm" d = Some (VStr term) ->
  search_questions str_other store_lower req st =
  let matches :=
    filter (fun q => ilike store_lower (Question.question q) ("%" ++ term ++
        "%"))
           (questions st) in
  if len matches =? 0 then (Raise (HTTPException 404), st)
  else
    (Return (VDict [("success", VBool true);
                    ("questions", VList (paginate_elements req matches));
                    ("total_questions",
                     VInt (len (paginate_elements req matches)))]), st).
Proof.
  intros Hd Ht. unfold search_questions, py_get, bind, ret, get_store.
  rewrite Hd. unfold dict_get_or. rewrite Ht. simpl fstr. cbv zeta.
  destruct (len _ =? 0); reflexivity.
Qed.

Lemma post_question_search
  (columns_of :
     value -> value -> value -> value -> option (string * string * value * Z))
  (str_other : value -> string) (store_lower : N -> N)
  (req : Request) (st : Store)
  (d : list (string * value)) (term : string) :
  json req = VDict d ->
  dict_get "searchTerm" d = Some (VStr term) ->
  term <> "" ->
  post_question columns_of str_other store_lower req st
  = search_questions str_other store_lower req st.
Proof.
  intros Hd Ht Hne. unfold post_question, py_get, bind, ret.
  rewrite Hd. unfold dict_get_or. rewrite Ht. simpl.
  destruct (String.eqb_spec term ""); [contradiction|reflexivity].
Qed.

Lemma len_zero_iff {A : Type} (l : list A) : (len l =? 0) = true <-> l = [].
Proof.
  unfold len. rewrite Z.eqb_eq. destruct l; simpl; split; try easy; lia.
Qed.

(** C8, as amended: for a non-empty search term that is a string without
    the pattern characters [%], [_] and backslash, the questions the search
    branch matches are exactly the questions whose text contains the term
    when letter case is ignored; the request fails with 404 exactly when no
    question does, and otherwise answers 200 with the requested page of the
    matches. *)
Theorem search_matches_substring
  (columns_of :
     value -> value -> value -> value -> option (string * string * value * Z))
  (str_other : value -> string) (store_lower : N -> N)
  (req : Request) (st : Store)
  (d : list (string * value)) (term : string) :
  json req = VDict d ->
  dict_get "searchTerm" d = Some (VStr term) ->
  term <> "" ->
  literal term = true ->
  let matches :=
    filter (fun q => ilike store_lower (Question.question q) ("%" ++ term ++
        "%"))
           (questions st) in
  let r := fst (serve (post_question columns_of str_other store_lower req) st)
      in
  (forall q, In q matches
             <-> In q (questions st) /\ contains_ci store_lower term
                 (Question.question q))
  /\ (status r = 404
      <-> forall q, In q (questions st)
                    -> ~ contains_ci store_lower term (Question.question q))
  /\ (status r <> 404 ->
      status r = 200
      /\ field "success" r = Some (VBool true)
      /\ field "questions" r = Some (VList (paginate_elements req matches))).
Proof.
  intros Hd Ht Hne Hlit matches r.
  assert (Hin : forall q, In q matches
                          <-> In q (questions st)
                              /\ contains_ci store_lower term
                                  (Question.question q)).
  { intros q. unfold matches. rewrite filter_In.
    now rewrite (ilike_contains store_lower term _ Hlit). }
  split; [exact Hin|].
  subst r. unfold serve.
  rewrite (post_question_search columns_of str_other store_lower req st d term
      Hd Ht Hne).
  rewrite (search_questions_dict str_other store_lower req st d term Hd Ht).
      cbv zeta.
  fold matches. destruct (len matches =? 0) eqn:E.
  - apply len_zero_iff in E. split.
    + simpl. split; [|reflexivity]. intros _ q Hq Hc.
      assert (Hm : In q matches) by (apply Hin; now split).
      rewrite E in Hm. destruct Hm.
    + simpl. intros H. now contradiction H.
  - split.
    + simpl. split; [discriminate|]. intros Hnone. exfalso.
      destruct matches as [|q m] eqn:Em; [discriminate|].
      assert (Hq : In q (q :: m)) by now left.
      apply Hin in Hq. destruct Hq as [Hq Hc]. exact (Hnone q Hq Hc).
    + intros _. simpl. repeat split.
Qed.

Lemma search_matches_substring_witness :
  field "questions"
    (fst (serve (post_question typed_columns str_scalar latin1_lower
                   (request (VDict [("searchTerm", VStr "café")]) None))
                cafe_store))
  = Some (VList [Question.format cafe_question]).
Proof.
  destruct (search_matches_substring typed_columns str_scalar latin1_lower
              (request (VDict [("searchTerm", VStr "café")]) None)
              cafe_store [("searchTerm", VStr "café")] "café"
              eq_refl eq_refl) as (_ & _ & H).
  - discriminate.
  - reflexivity.
  - destruct H as (_ & _ & E); [simpl; discriminate|exact E].
Defined.

(** C8, as stated, fails: the search term [_] matches every question with
    at least one character, so both questions of the store are returned
    although the text of neither contains an underscore. *)
Lemma search_underscore_counterexample :
  field "questions"
    (fst (serve (post_question typed_columns str_scalar latin1_lower
                   (request (VDict [("searchTerm", VStr "_")]) None))
                small_store))
  = Some (VList [Question.format capital_question;
                 Question.format abc_question])
  /\ substringb "_" (Question.question capital_question) = false
  /\ substringb "_" (Question.question abc_question) = false
  /\ ~ contains_ci latin1_lower "_" (Question.question capital_question)
  /\ ~ contains_ci latin1_lower "_" (Question.question abc_question).
Proof.
  split; [reflexivity|]. split; [reflexivity|]. split; [reflexivity|].
  split; intros H;
    apply (contains_ci_In latin1_lower _ _ 95%N) in H;
    try (now left);
    vm_compute in H; repeat (destruct H as [H|H]; [discriminate|]);
    exact H.
Qed.

(** Whenever the search branch answers, [total_questions] is the length of
    the page it returns. *)
Lemma search_total_is_page_length
  (columns_of :
     value -> value -> value -> value -> option (string * string * value * Z))
  (str_other : value -> string) (store_lower : N -> N)
  (req : Request) (st : Store)
  (d : list (string * value)) (term : string) :
  json req = VDict d ->
  dict_get "searchTerm" d = Some (VStr term) ->
  term <> "" ->
  let matches :=
    filter (fun q => ilike store_lower (Question.question q) ("%" ++ term ++
        "%"))
           (questions st) in
  let r := fst (serve (post_question columns_of str_other store_lower req) st)
      in
  matches <> [] ->
  field "total_questions" r
  = Some (VInt (len (paginate_elements req matches))).
Proof.
  intros Hd Ht Hne matches r Hm. subst r. unfold serve.
  rewrite (post_question_search columns_of str_other store_lower req st d term
      Hd Ht Hne).
  rewrite (search_questions_dict str_other store_lower req st d term Hd Ht).
      cbv zeta.
  fold matches. destruct (len matches =? 0) eqn:E; [|reflexivity].
  apply len_zero_iff in E. contradiction.
Qed.

(** C3: the search response computes [total_questions] from the page, not
    from the matches: eleven questions match the term, the first page holds
    ten of them, and [total_questions] is 10. *)
Theorem search_total_questions_counts_page (store_lower : N -> N) :
  let req := request (VDict [("searchTerm", VStr "a")]) None in
  let r := fst (serve (post_question typed_columns str_scalar store_lower req)
                      (store_of 11)) in
  len (filter (fun q => ilike store_lower (Question.question q) "%a%")
              (questions (store_of 11))) = 11
  /\ status r = 200
  /\ field "total_questions" r = Some (VInt 10).
Proof. repeat split. Qed.

(** ** Equality of values *)

Lemma value_eqb_eq (a b : value) : value_eqb a b = true <-> a = b.
Proof.
  revert b. induction a as [| x | x | x | x | l IH | d IH]
    using value_nested_ind; intros b.
  - destruct b; simpl; split; congruence.
  - destruct b; simpl; try (split; congruence).
    rewrite Bool.eqb_true_iff. split; congruence.
  - destruct b; simpl; try (split; congruence).
    rewrite Z.eqb_eq. split; congruence.
  - destruct b; simpl; try (split; congruence).
    rewrite Z.eqb_eq. split; congruence.
  - destruct b; simpl; try (split; congruence).
    rewrite String.eqb_eq. split; congruence.
  - destruct b as [| | | | | m |]; simpl; try (split; congruence).
    revert m. induction IH as [|u l Hu _ IHl]; intros [|v m];
      try (split; congruence).
    rewrite andb_true_iff, Hu, IHl. split.
    + intros [-> E]. now inversion E.
    + intros E. inversion E. auto.
  - destruct b as [| | | | | | m]; simpl; try (split; congruence).
    revert m. induction IH as [|[j u] d Hu _ IHd]; intros [|[k v] m];
      try (split; congruence).
    simpl in Hu.
    rewrite !andb_true_iff, String.eqb_eq, Hu, IHd. split.
    + intros [[-> ->] E]. now inversion E.
    + intros E. inversion E. auto.
Qed.

(** ** POST /api/quizzes *)








(** A quiz request that names all existing ids under the category type
    [click] is answered with [question: null]. *)
Example quiz_all_seen :
  field "question"
    (fst (serve (get_random_quiz_question notin_refused
                   (request (VDict [("quiz_category",
                                     VDict [("type", VStr "click");
                                            ("id", VInt 0)]);
                                    ("previous_questions",
                                     VList [VInt 1; VInt 2])]) None))
                small_store))
  = Some VNone.
Proof. reflexivity. Qed.

(** A quiz category without a [type] raises inside the [try] block and the
    request is answered 400. *)
Example quiz_category_without_type :
  status
    (fst (serve (get_random_quiz_question notin_refused
                   (request (VDict [("quiz_category", VDict []);
                                    ("previous_questions", VList [])]) None))
                small_store))
  = 400.
Proof. reflexivity. Qed.

(** * Further properties of the routes *)

(** ** Pagination for every page number *)

Lemma firstn_skipn_segment {A : Type} (j k : nat) (l : list A) :
  exists pre post, l = (pre ++ firstn k (skipn j l) ++ post)%list.
Proof.
  exists (firstn j l), (skipn k (skipn j l)).
  now rewrite (firstn_skipn k (skipn j l)), (firstn_skipn j l).
Qed.

(** X1: whatever the page number (zero and negative ones included), the
    helper returns at most ten elements, and they are consecutive elements
    of the formatted list, in its order. *)
Theorem paginate_elements_segment (req : Request) (elements : list Question.t) :
  len (paginate_elements req elements) <= 10
  /\ exists pre post,
       map Question.format elements
       = (pre ++ paginate_elements req elements ++ post)%list.
Proof.
  unfold paginate_elements, py_slice, QUESTIONS_PER_PAGE. split.
  - unfold len. rewrite length_firstn.
    set (n := Z.of_nat (List.length (map Question.format elements))).
    assert (slice_bound n ((args_get_page req - 1) * 10 + 10)
            - slice_bound n ((args_get_page req - 1) * 10) <= 10).
    { unfold slice_bound.
      destruct (Z.ltb_spec ((args_get_page req - 1) * 10 + 10) 0);
        destruct (Z.ltb_spec ((args_get_page req - 1) * 10) 0); lia. }
    lia.
  - apply firstn_skipn_segment.
Qed.

(** X2: page 0 is empty for every list, so GET /api/questions?page=0 is
    answered 404 whatever the store holds. *)
Theorem paginate_elements_page_zero (req : Request) :
  args_get_page req = 0 ->
  (forall elements, paginate_elements req elements = [])
  /\ (forall st, status (fst (serve (get_questions req) st)) = 404).
Proof.
  intros Hp.
  assert (E : forall elements, paginate_elements req elements = []).
  { intros elements. unfold paginate_elements, py_slice, QUESTIONS_PER_PAGE.
    rewrite Hp. cbv zeta.
    set (n := Z.of_nat (List.length (map Question.format elements))).
    set (a := slice_bound n ((0 - 1) * 10 + 10)
              - slice_bound n ((0 - 1) * 10)).
    assert (a <= 0).
    { subst a. unfold slice_bound.
      destruct (Z.ltb_spec ((0 - 1) * 10 + 10) 0);
        destruct (Z.ltb_spec ((0 - 1) * 10) 0); lia. }
    replace (Z.to_nat a) with O by lia. reflexivity. }
  split; [exact E|]. intros st.
  unfold serve, get_questions, bind, get_store. now rewrite E.
Qed.

Lemma paginate_elements_page_zero_witness :
  status (fst (serve (get_questions (request VNone (Some 0))) small_store))
  = 404.
Proof.
  apply (paginate_elements_page_zero (request VNone (Some 0))). reflexivity.
Defined.

(** ** Ordering by difficulty *)

Lemma insert_by_difficulty_perm (q : Question.t) (l : list Question.t) :
  Permutation (q :: l) (insert_by_difficulty q l).
Proof.
  induction l as [|r l IH]; simpl; [reflexivity|].
  destruct (Question.difficulty q <=? Question.difficulty r); [reflexivity|].
  rewrite perm_swap. now apply perm_skip.
Qed.

Lemma insert_by_difficulty_sorted (q : Question.t) (l : list Question.t) :
  StronglySorted by_difficulty l ->
  StronglySorted by_difficulty (insert_by_difficulty q l).
Proof.
  induction 1 as [|r l Hs IH Hr]; simpl.
  - constructor; constructor.
  - destruct (Z.leb_spec (Question.difficulty q) (Question.difficulty r)).
    + constructor; [now constructor|]. constructor.
      * unfold by_difficulty. lia.
      * eapply Forall_impl; [|exact Hr]. unfold by_difficulty. intros; lia.
    + constructor; [exact IH|].
      eapply Permutation_Forall; [apply insert_by_difficulty_perm|].
      constructor; [unfold by_difficulty; lia|exact Hr].
Qed.

Lemma order_by_difficulty_perm (l : list Question.t) :
  Permutation l (order_by_difficulty l).
Proof.
  unfold order_by_difficulty. induction l as [|q l IH]; simpl.
  - constructor.
  - rewrite <- insert_by_difficulty_perm. now apply perm_skip.
Qed.

Lemma len_order_by_difficulty (l : list Question.t) :
  len (order_by_difficulty l) = len l.
Proof.
  unfold len. f_equal. symmetry. apply Permutation_length.
  apply order_by_difficulty_perm.
Qed.

(** X3: the ordered query returns the same rows, each as often as the table
    holds it, in ascending difficulty. *)
Theorem order_by_difficulty_sorted (l : list Question.t) :
  Permutation l (order_by_difficulty l)
  /\ StronglySorted by_difficulty (order_by_difficulty l).
Proof.
  split; [apply order_by_difficulty_perm|].
  unfold order_by_difficulty. induction l as [|q l IH]; simpl.
  - constructor.
  - now apply insert_by_difficulty_sorted.
Qed.

(** ** GET /api/questions *)

Lemma len_paginate_elements (req : Request) (elements : list Question.t) :
  1 <= args_get_page req ->
  len (paginate_elements req elements)
  = Z.min 10 (Z.max 0 (len elements - (args_get_page req - 1) * 10)).
Proof.
  intros Hp. rewrite (paginate_elements_eq req elements Hp). unfold len.
  rewrite length_firstn, length_skipn, length_map. lia.
Qed.

(** X4: for a page number [p >= 1], listing the questions fails with 404
    exactly when the store holds no more than [(p-1)*10] questions (an empty
    store included); otherwise it answers 200 with the page of the questions
    in ascending difficulty, the number of questions on the page as
    [questions_per_page] and the number of all questions as
    [total_questions], and it leaves the store as it was. *)
Theorem get_questions_page (req : Request) (st : Store) :
  1 <= args_get_page req ->
  let r := serve (get_questions req) st in
  let offset := (args_get_page req - 1) * 10 in
  (status (fst r) = 404 <-> len (questions st) <= offset)
  /\ (offset < len (questions st) ->
      status (fst r) = 200
      /\ field "questions" (fst r)
         = Some (VList (firstn 10 (skipn (Z.to_nat offset)
                    (map Question.format
                         (order_by_difficulty (questions st))))))
      /\ field "questions_per_page" (fst r)
         = Some (VInt (Z.min 10 (len (questions st) - offset)))
      /\ field "total_questions" (fst r)
         = Some (VInt (len (questions st)))
      /\ field "current_category" (fst r) = Some (VList []))
  /\ snd r = st.
Proof.
  intros Hp r offset.
  pose proof (len_paginate_elements req (order_by_difficulty (questions st))
                Hp) as Hlen.
  rewrite len_order_by_difficulty in Hlen. fold offset in Hlen.
  pose proof (paginate_elements_eq req (order_by_difficulty (questions st))
                Hp) as Heq.
  fold offset in Heq.
  subst r. unfold serve, get_questions, bind, get_store.
  destruct (Z.eqb_spec
              (len (paginate_elements req
                      (order_by_difficulty (questions st)))) 0) as [E|E].
  - simpl. split; [|split; [|reflexivity]].
    + split; [intros _; lia|reflexivity].
    + intros H. lia.
  - simpl. split; [|split; [|reflexivity]].
    + split; [discriminate|]. intros H. lia.
    + intros H. rewrite Hlen, Heq.
      replace (Z.max 0 (len (questions st) - offset))
        with (len (questions st) - offset) by lia.
      repeat split.
Qed.

Lemma get_questions_page_witness :
  status (fst (serve (get_questions (request VNone (Some 2))) (store_of 10)))
  = 404
  /\ field "questions_per_page"
       (fst (serve (get_questions (request VNone (Some 2))) (store_of 13)))
     = Some (VInt 3)
  /\ field "questions"
       (fst (serve (get_questions (request VNone (Some 2))) (store_of 13)))
     = Some (VList (map Question.format
                        (numbered_questions "a question" 11 3))).
Proof.
  split; [|split].
  - apply (get_questions_page (request VNone (Some 2)) (store_of 10)).
    + unfold args_get_page, request. simpl. lia.
    + unfold args_get_page, request, len. simpl. lia.
  - apply (get_questions_page (request VNone (Some 2)) (store_of 13)).
    + unfold args_get_page, request. simpl. lia.
    + unfold args_get_page, request, len. simpl. lia.
  - destruct (get_questions_page (request VNone (Some 2)) (store_of 13))
      as (_ & H & _).
    + unfold args_get_page, request. simpl. lia.
    + destruct H as (_ & E & _).
      * unfold args_get_page, request, len. simpl. lia.
      * exact E.
Defined.

(** ** GET /api/categories *)

Lemma str_int_inj (m n : Z) : str_int m = str_int n -> m = n.
Proof.
  assert (Hnil : forall p, Pos.to_uint p <> Decimal.Nil).
  { intros p E. apply (f_equal Pos.of_uint) in E.
    rewrite DecimalPos.Unsigned.of_to in E. discriminate. }
  assert (H : forall z, NilZero.int_of_string (str_int z) = Some (Z.to_int z)).
  { intros z. unfold str_int. apply NilZero.isi.
    - destruct z; simpl; try discriminate. intros E. inversion E.
      now apply Hnil in H0.
    - destruct z; simpl; try discriminate. intros E. inversion E.
      now apply Hnil in H0. }
  intros E. apply DecimalZ.to_int_inj.
  pose proof (H m) as Hm. rewrite E, H in Hm. now inversion Hm.
Qed.

Lemma dict_get_set_same (k : string) (v : value) (d : list (string * value)) :
  dict_get k (dict_set k v d) = Some v.
Proof.
  induction d as [|[k' v'] d IH]; simpl.
  - now rewrite String.eqb_refl.
  - destruct (String.eqb_spec k' k); simpl.
    + now rewrite String.eqb_refl.
    + destruct (String.eqb_spec k' k); [contradiction|exact IH].
Qed.

Lemma dict_get_set_other (j k : string) (v : value)
  (d : list (string * value)) :
  j <> k -> dict_get j (dict_set k v d) = dict_get j d.
Proof.
  intros Hne. induction d as [|[k' v'] d IH]; simpl.
  - destruct (String.eqb_spec k j); [congruence|reflexivity].
  - destruct (String.eqb_spec k' k); simpl.
    + subst. destruct (String.eqb_spec k j); [congruence|reflexivity].
    + destruct (String.eqb_spec k' j); [reflexivity|exact IH].
Qed.

Lemma dict_set_not_nil (k : string) (v : value) (d : list (string * value)) :
  dict_set k v d <> [].
Proof.
  destruct d as [|[k' v'] d]; simpl; [discriminate|].
  destruct (k' =? k)%string; discriminate.
Qed.

(** The dict the loop over the categories builds, started from [d]. *)
Lemma categories_loop_get (cats : list Category.t) (d : list (string * value))
  (k : string) (v : value) :
  dict_get k
    (fold_left
       (fun d c => dict_set (str_int (Category.id c))
                            (VStr (Category.type c)) d) cats d) = Some v ->
  dict_get k d = Some v
  \/ exists c, In c cats /\ k = str_int (Category.id c)
               /\ v = VStr (Category.type c).
Proof.
  revert d. induction cats as [|a cats IH]; intros d H; simpl in H.
  - now left.
  - apply IH in H. destruct H as [H|(c & Hc & E)].
    + destruct (String.eqb_spec k (str_int (Category.id a))) as [->|Hne].
      * rewrite dict_get_set_same in H. inversion H. right.
        exists a. split; [now left|auto].
      * rewrite dict_get_set_other in H by exact Hne. now left.
    + right. exists c. split; [now right|exact E].
Qed.

Lemma categories_loop_keep (cats : list Category.t)
  (d : list (string * value)) (k : Z) :
  (forall c, In c cats -> Category.id c <> k) ->
  dict_get (str_int k)
    (fold_left
       (fun d c => dict_set (str_int (Category.id c))
                            (VStr (Category.type c)) d) cats d)
  = dict_get (str_int k) d.
Proof.
  revert d. induction cats as [|a cats IH]; intros d H; simpl; [reflexivity|].
  rewrite IH by (intros c Hc; apply H; now right).
  apply dict_get_set_other. intros E. apply str_int_inj in E.
  symmetry in E. revert E. apply H. now left.
Qed.

Lemma categories_loop_put (cats : list Category.t)
  (d : list (string * value)) (c : Category.t) :
  NoDup (map Category.id cats) -> In c cats ->
  dict_get (str_int (Category.id c))
    (fold_left
       (fun d c => dict_set (str_int (Category.id c))
                            (VStr (Category.type c)) d) cats d)
  = Some (VStr (Category.type c)).
Proof.
  revert d. induction cats as [|a cats IH]; intros d Hnd Hc; [destruct Hc|].
  simpl in Hnd. inversion Hnd as [|? ? Hnotin Hnd']; subst. simpl.
  destruct Hc as [->|Hc].
  - rewrite categories_loop_keep; [apply dict_get_set_same|].
    intros c' Hc' E'. apply Hnotin. rewrite <- E'. now apply in_map.
  - now apply IH.
Qed.

Lemma categories_loop_not_nil (cats : list Category.t)
  (d : list (string * value)) :
  d <> [] ->
  fold_left
    (fun d c => dict_set (str_int (Category.id c))
                         (VStr (Category.type c)) d) cats d <> [].
Proof.
  revert d. induction cats as [|a cats IH]; intros d H; simpl; [exact H|].
  apply IH, dict_set_not_nil.
Qed.

(** X5: listing the categories fails with 404 exactly when there is no
    category; otherwise it answers 200 with a dict that has, for every
    category (ids being unique), its type under its id written in decimal,
    and no other entry. *)
Theorem get_categories_dict (st : Store) :
  NoDup (map Category.id (categories st)) ->
  let r := fst (serve get_categories st) in
  (status r = 404 <-> categories st = [])
  /\ (categories st <> [] ->
      status r = 200
      /\ field "success" r = Some (VBool true)
      /\ exists dict,
           field "categories" r = Some (VDict dict)
           /\ (forall c, In c (categories st) ->
                 dict_get (str_int (Category.id c)) dict
                 = Some (VStr (Category.type c)))
           /\ (forall k v, dict_get k dict = Some v ->
                 exists c, In c (categories st)
                           /\ k = str_int (Category.id c)
                           /\ v = VStr (Category.type c))).
Proof.
  intros Hnd r. subst r. unfold serve, get_categories, bind, get_store.
  destruct (len (categories_dict_of (categories st)) =? 0) eqn:E.
  - apply len_zero_iff in E.
    assert (Hnil : categories st = []).
    { destruct (categories st) as [|a cats] eqn:Ec; [reflexivity|].
      exfalso. revert E. unfold categories_dict_of. simpl.
      apply categories_loop_not_nil. discriminate. }
    simpl. split; [tauto|]. intros H. contradiction.
  - assert (Hne : categories st <> []).
    { intros Hnil. rewrite Hnil in E. discriminate. }
    simpl. split; [split; [discriminate|contradiction]|].
    intros _. split; [reflexivity|]. split; [reflexivity|].
    exists (categories_dict_of (categories st)). split; [reflexivity|]. split.
    + intros c Hc. now apply categories_loop_put.
    + intros k v H. unfold categories_dict_of in H.
      apply categories_loop_get in H. destruct H as [H|H]; [discriminate|].
      exact H.
Qed.

Lemma get_categories_dict_witness :
  status (fst (serve get_categories small_store)) = 200.
Proof.
  refine (proj1 (proj2 (get_categories_dict small_store _) _)).
  - simpl. repeat constructor; simpl; intuition discriminate.
  - discriminate.
Defined.

(** ** DELETE /api/questions/<id>, the whole route *)

Lemma filter_id_sound (question_id : Z) (l : list Question.t)
  (q : Question.t) :
  In q (filter (fun r => Question.id r =? question_id) l) ->
  Question.id q = question_id.
Proof. intros H. apply filter_In in H. now apply Z.eqb_eq. Qed.

Lemma delete_question_cases (req : Request) (question_id : Z) (st : Store) :
  delete_question req question_id st =
  match filter (fun q => Question.id q =? question_id) (questions st) with
  | [q] =>
      (Return (deleted_body req question_id (without question_id st)),
       without question_id st)
  | _ => (Raise (HTTPException 422), st)
  end.
Proof.
  unfold delete_question, try_except, delete_question_try, bind, get_store.
  destruct (filter _ (questions st)) as [|q [|q' l]] eqn:E; try reflexivity.
  assert (Hq : Question.id q = question_id).
  { apply (filter_id_sound question_id (questions st)). rewrite E. now left. }
  unfold one_or_none, ret, Question_delete, bind, get_store, put_store.
  rewrite Hq. reflexivity.
Qed.

Lemma filter_twice_none (question_id : Z) (l : list Question.t) :
  filter (fun q => Question.id q =? question_id)
         (filter (fun r => negb (Question.id r =? question_id)) l) = [].
Proof.
  apply filter_none. intros q Hq. apply filter_In in Hq.
  destruct Hq as [_ Hq]. now apply negb_true_iff in Hq.
Qed.

Lemma NoDup_map_eq {A : Type} (key : A -> Z) (l : list A) (a b : A) :
  NoDup (map key l) -> In a l -> In b l -> key a = key b -> a = b.
Proof.
  induction l as [|x l IH]; intros Hnd Ha Hb E; [destruct Ha|].
  simpl in Hnd. inversion Hnd as [|? ? Hnotin Hnd']; subst.
  destruct Ha as [->|Ha], Hb as [->|Hb]; auto.
  - exfalso. apply Hnotin. rewrite E. now apply in_map.
  - exfalso. apply Hnotin. rewrite <- E. now apply in_map.
Qed.

Lemma length_filter_out {A : Type} (key : A -> Z) (l : list A) (c : A) :
  NoDup (map key l) -> In c l ->
  S (List.length (filter (fun r => negb (key r =? key c)) l))
  = List.length l.
Proof.
  induction l as [|x l IH]; intros Hnd Hc; [destruct Hc|].
  simpl in Hnd. inversion Hnd as [|? ? Hnotin Hnd']; subst. simpl.
  destruct (Z.eqb_spec (key x) (key c)) as [E|E]; simpl.
  - f_equal. f_equal. apply forallb_filter_id. apply forallb_forall.
    intros r Hr. apply negb_true_iff, Z.eqb_neq. intros E'. apply Hnotin.
    rewrite E, <- E'. now apply in_map.
  - destruct Hc as [->|Hc]; [contradiction|].
    now rewrite (IH Hnd' Hc).
Qed.

Lemma len_filter_out {A : Type} (key : A -> Z) (l : list A) (c : A) :
  NoDup (map key l) -> In c l ->
  len (filter (fun r => negb (key r =? key c)) l) = len l - 1.
Proof.
  intros Hnd Hc. unfold len.
  rewrite <- (length_filter_out key l c Hnd Hc). lia.
Qed.

(** X6: deleting the id of a question of the store (ids being unique)
    answers 200 with that id as [deleted] and the number of questions left,
    one fewer than before, as [total_questions]; afterwards the store holds
    exactly the other questions, in their order, and the same categories. *)
Theorem delete_question_present
  (req : Request) (st : Store) (q : Question.t) :
  NoDup (map Question.id (questions st)) ->
  In q (questions st) ->
  let r := serve (delete_question req (Question.id q)) st in
  status (fst r) = 200
  /\ field "deleted" (fst r) = Some (VInt (Question.id q))
  /\ field "success" (fst r) = Some (VBool true)
  /\ field "total_questions" (fst r) = Some (VInt (len (questions st) - 1))
  /\ snd r = without (Question.id q) st
  /\ (forall q', In q' (questions (snd r))
                 <-> In q' (questions st) /\ q' <> q)
  /\ categories (snd r) = categories st.
Proof.
  intros Hnd Hq r. subst r. unfold serve.
  rewrite delete_question_cases.
  rewrite (filter_by_key Question.id (questions st) q Hnd Hq).
  cbv beta iota.
  split; [reflexivity|]. split; [reflexivity|]. split; [reflexivity|].
  split.
  { transitivity
      (Some (VInt (len (questions (without (Question.id q) st)))));
      [reflexivity|].
    unfold without. cbn [questions].
    now rewrite (len_filter_out Question.id (questions st) q Hnd Hq). }
  split; [reflexivity|]. split; [|reflexivity].
  intros q'. cbn [snd]. unfold without. cbn [questions].
  rewrite filter_In, negb_true_iff, Z.eqb_neq. split.
  - intros [Hin Hne]. split; [exact Hin|]. intros ->. now apply Hne.
  - intros [Hin Hne]. split; [exact Hin|]. intros E. apply Hne.
    now apply (NoDup_map_eq Question.id (questions st)).
Qed.

Lemma delete_question_present_witness :
  questions (snd (serve (delete_question (request VNone None) 1) small_store))
  = [abc_question].
Proof.
  destruct (delete_question_present (request VNone None) small_store
              capital_question) as (_ & _ & _ & _ & E & _).
  - simpl. repeat constructor; simpl; intuition discriminate.
  - simpl. auto.
  - exact (f_equal questions E).
Defined.

(** X7: once a delete has answered 200, deleting the same id again answers
    422 and changes nothing. *)
Theorem delete_question_twice (req req' : Request) (st : Store)
  (question_id : Z) :
  status (fst (serve (delete_question req question_id) st)) = 200 ->
  let st' := snd (serve (delete_question req question_id) st) in
  status (fst (serve (delete_question req' question_id) st')) = 422
  /\ snd (serve (delete_question req' question_id) st') = st'.
Proof.
  intros H st'. subst st'. revert H. unfold serve.
  rewrite (delete_question_cases req question_id st).
  destruct (filter _ (questions st)) as [|q [|q' l]];
    try (simpl; discriminate).
  intros _. cbv beta iota. cbn [snd].
  rewrite delete_question_cases.
  assert (E : filter (fun q => Question.id q =? question_id)
                     (questions (without question_id st)) = []).
  { exact (filter_twice_none question_id (questions st)). }
  rewrite E. split; reflexivity.
Qed.

Lemma delete_question_twice_witness :
  status
    (fst (serve (delete_question (request VNone None) 1)
            (snd (serve (delete_question (request VNone None) 1)
                        small_store)))) = 422.
Proof.
  apply (delete_question_twice (request VNone None) (request VNone None)
           small_store 1).
  reflexivity.
Defined.

(** X8: for every store and every unsigned id the delete route answers 200
    or 422, never 404, and it answers 200 exactly when one question has the
    id; a path segment that is no unsigned number is the router's 404; and
    any answer other than 200 leaves the store as it was. *)
Theorem delete_question_statuses (req : Request) (st : Store) (segment : Z) :
  let r := serve (int_route (delete_question req) segment) st in
  (0 <= segment ->
   (status (fst r) = 200 \/ status (fst r) = 422)
   /\ (status (fst r) = 200
       <-> exists q,
             filter (fun q => Question.id q =? segment) (questions st)
             = [q]))
  /\ (segment < 0 -> status (fst r) = 404)
  /\ (status (fst r) <> 200 -> snd r = st).
Proof.
  intros r. subst r. destruct (Z.lt_ge_cases segment 0) as [Hneg|Hpos].
  - unfold serve. rewrite (int_route_signed _ _ st Hneg). simpl.
    split; [lia|]. split; reflexivity.
  - rewrite (int_route_unsigned _ _ Hpos).
    unfold serve. rewrite delete_question_cases.
    destruct (filter _ (questions st)) as [|q [|q' l]]; simpl.
    + split; [intros _|split; [lia|reflexivity]].
      split; [now right|]. split; [discriminate|].
      intros (x & E). discriminate.
    + split; [intros _|split; [lia|intros H; now contradiction H]].
      split; [now left|]. split; [intros _; now exists q|reflexivity].
    + split; [intros _|split; [lia|reflexivity]].
      split; [now right|]. split; [discriminate|].
      intros (x & E). discriminate.
Qed.

(** ** Routes that only read *)

Lemma readonly_ret {A : Type} (a : A) : readonly (ret a).
Proof. intros st. reflexivity. Qed.

Lemma readonly_raise {A : Type} (e : exn) : readonly (@raise A e).
Proof. intros st. reflexivity. Qed.

Lemma readonly_abort {A : Type} (code : Z) : readonly (@abort A code).
Proof. intros st. reflexivity. Qed.

Lemma readonly_get_store : readonly get_store.
Proof. intros st. reflexivity. Qed.

Lemma readonly_bind {A B : Type} (m : M A) (k : A -> M B) :
  readonly m -> (forall a, readonly (k a)) -> readonly (bind m k).
Proof.
  intros Hm Hk st. unfold bind. specialize (Hm st).
  destruct (m st) as [[a|e] st']; simpl in Hm; subst; [apply Hk|reflexivity].
Qed.

Lemma readonly_try_except {A : Type} (m h : M A) :
  readonly m -> readonly h -> readonly (try_except m h).
Proof.
  intros Hm Hh st. unfold try_except. specialize (Hm st).
  destruct (m st) as [[a|e] st']; simpl in Hm; subst; [reflexivity|apply Hh].
Qed.

Lemma readonly_py_get (body : value) (key : string) (default : value) :
  readonly (py_get body key default).
Proof. destruct body; intros st; reflexivity. Qed.

Lemma readonly_py_in (key : string) (body : value) : readonly (py_in key body).
Proof. destruct body; intros st; reflexivity. Qed.

Lemma readonly_py_getitem (obj : value) (key : string) :
  readonly (py_getitem obj key).
Proof.
  destruct obj; try (intros st; reflexivity).
  unfold py_getitem. destruct (dict_get key d); intros st; reflexivity.
Qed.

Lemma readonly_one_or_none {A : Type} (rows : list A) :
  readonly (one_or_none rows).
Proof. destruct rows as [|r [|r' l]]; intros st; reflexivity. Qed.

Lemma readonly_notin_
  (notin_other : value -> outcome (Question.t -> bool)) (v : value) :
  readonly (notin_ notin_other v).
Proof.
  destruct v; try (intros st; reflexivity).
  unfold notin_. destruct (int_list l); intros st; reflexivity.
Qed.

Create HintDb readonly.
#[local] Hint Resolve readonly_ret readonly_raise readonly_abort
  readonly_get_store readonly_py_get readonly_py_in readonly_py_getitem
  readonly_one_or_none readonly_notin_ : readonly.

Ltac readonly_step :=
  match goal with
  | |- readonly (bind _ _) => apply readonly_bind; [|intro]
  | |- readonly (try_except _ _) => apply readonly_try_except
  | |- readonly (if ?b then _ else _) => destruct b
  | |- readonly (match ?x with _ => _ end) => destruct x
  | |- readonly _ => solve [auto with readonly]
  end.

Lemma readonly_search_questions (str_other : value -> string) (store_lower : N
    -> N) (req : Request) :
  readonly (search_questions str_other store_lower req).
Proof. unfold search_questions. repeat readonly_step. Qed.

Lemma readonly_quiz
  (notin_other : value -> outcome (Question.t -> bool)) (req : Request) :
  readonly (get_random_quiz_question notin_other req).
Proof.
  unfold get_random_quiz_question, get_random_quiz_question_try,
    available_questions.
  repeat readonly_step.
Qed.

Lemma serve_readonly (h : M value) (st : Store) :
  readonly h -> snd (serve h st) = st.
Proof.
  intros Hh. unfold serve. specialize (Hh st).
  destruct (h st) as [o st']. exact Hh.
Qed.

(** X9: the routes that list the categories, the questions and the
    questions of a category, and the quiz, never change the store, whatever
    the request and whatever they answer. *)
Theorem reading_routes_keep_store
  (notin_other : value -> outcome (Question.t -> bool))
  (req : Request) (st : Store) (category_id : Z) :
  snd (serve get_categories st) = st
  /\ snd (serve (get_questions req) st) = st
  /\ snd (serve (get_questions_by_category req category_id) st) = st
  /\ snd (serve (get_random_quiz_question notin_other req) st) = st.
Proof.
  split; [|split; [|split]]; apply serve_readonly.
  - unfold get_categories. repeat readonly_step.
  - unfold get_questions. repeat readonly_step.
  - unfold get_questions_by_category. repeat readonly_step.
  - apply readonly_quiz.
Qed.

(** ** POST /api/quizzes, every request *)

Lemma try_except_abort_status (m : M value) (code : Z) (st : Store) :
  status (fst (serve (try_except m (abort code)) st)) = 200
  \/ fst (try_except m (abort code) st) = Raise (HTTPException code).
Proof.
  unfold serve, try_except. destruct (m st) as [[v|e] st']; simpl; auto.
Qed.

(** X10: whatever the body of the request, the quiz route answers 200 or
    400, nothing else. *)
Theorem quiz_statuses
  (notin_other : value -> outcome (Question.t -> bool))
  (req : Request) (st : Store) :
  status (fst (serve (get_random_quiz_question notin_other req) st)) = 200
  \/ status (fst (serve (get_random_quiz_question notin_other req) st)) = 400.
Proof.
  unfold get_random_quiz_question.
  destruct (try_except_abort_status
              (get_random_quiz_question_try notin_other req) 400 st)
    as [H|H]; [now left|right].
  unfold serve.
  destruct (try_except _ _ st) as [o st']. simpl in H. now subst.
Qed.

(** X11: a quiz request whose body is not a JSON object, or is one without
    [quiz_category] or without [previous_questions], is answered 400. *)
Theorem quiz_missing_key_400
  (notin_other : value -> outcome (Question.t -> bool))
  (req : Request) (st : Store) :
  match json req with
  | VDict d =>
      dict_get "quiz_category" d = None
      \/ dict_get "previous_questions" d = None
  | _ => True
  end ->
  status (fst (serve (get_random_quiz_question notin_other req) st)) = 400.
Proof.
  intros H.
  unfold serve, get_random_quiz_question, try_except,
    get_random_quiz_question_try, bind.
  destruct (json req) as [| | | | s | l | d]; try reflexivity.
  - simpl. destruct (substringb "quiz_category" s); simpl;
      [destruct (substringb "previous_questions" s)|]; reflexivity.
  - simpl. destruct (existsb _ l); simpl; [destruct (existsb _ l)|];
      reflexivity.
  - unfold py_in, ret, dict_has.
    destruct (dict_get "quiz_category" d) as [c|];
      [|reflexivity].
    destruct (dict_get "previous_questions" d) as [p|]; [|reflexivity].
    destruct H; discriminate.
Qed.

Lemma quiz_missing_key_400_witness :
  status
    (fst (serve (get_random_quiz_question notin_refused
                   (request (VDict [("quiz_category",
                                     VDict [("type", VStr "click")])])
                            None))
                small_store)) = 400.
Proof.
  apply (quiz_missing_key_400 notin_refused
           (request (VDict [("quiz_category",
                             VDict [("type", VStr "click")])]) None)
           small_store).
  simpl. now right.
Defined.

(** ** POST /api/questions, the search branch for every term *)

Lemma post_question_search_value
  (columns_of :
     value -> value -> value -> value -> option (string * string * value * Z))
  (str_other : value -> string) (store_lower : N -> N)
  (req : Request) (st : Store)
  (d : list (string * value)) :
  json req = VDict d ->
  truthy (dict_get_or "searchTerm" d VNone) = true ->
  post_question columns_of str_other store_lower req st =
  let matches :=
    filter (fun q => ilike store_lower (Question.question q)
                       ("%" ++ fstr str_other (dict_get_or "searchTerm" d VNone)
                            ++ "%"))
           (questions st) in
  if len matches =? 0 then (Raise (HTTPException 404), st)
  else
    (Return (VDict [("success", VBool true);
                    ("questions", VList (paginate_elements req matches));
                    ("total_questions",
                     VInt (len (paginate_elements req matches)))]), st).
Proof.
  intros Hd Ht.
  unfold post_question, search_questions, py_get, bind, ret, get_store.
  rewrite Hd, Ht. cbv zeta. destruct (len _ =? 0); reflexivity.
Qed.

(** X12: a body with a truthy [searchTerm] is searched even when it also
    has the four fields of a new question: nothing is created, the store
    stays as it was, the answer is 200 or 404, and it is 404 exactly when no
    question matches the pattern. *)
Theorem search_term_takes_precedence
  (columns_of :
     value -> value -> value -> value -> option (string * string * value * Z))
  (str_other : value -> string) (store_lower : N -> N)
  (req : Request) (st : Store)
  (d : list (string * value)) :
  json req = VDict d ->
  truthy (dict_get_or "searchTerm" d VNone) = true ->
  let r := serve (post_question columns_of str_other store_lower req) st in
  let matches :=
    filter (fun q => ilike store_lower (Question.question q)
                       ("%" ++ fstr str_other (dict_get_or "searchTerm" d VNone)
                            ++ "%"))
           (questions st) in
  snd r = st
  /\ (status (fst r) = 200 \/ status (fst r) = 404)
  /\ (status (fst r) = 404 <-> matches = [])
  /\ field "created" (fst r) = None
  /\ field "question_created" (fst r) = None.
Proof.
  intros Hd Ht r matches. subst r. unfold serve.
  rewrite (post_question_search_value columns_of str_other store_lower req st d
      Hd Ht).
  cbv zeta. fold matches. destruct (len matches =? 0) eqn:E.
  - apply len_zero_iff in E. simpl. repeat split; auto.
  - simpl. repeat split; auto; try discriminate.
    intros Hm. rewrite Hm in E. discriminate.
Qed.

Lemma search_term_takes_precedence_witness :
  let body := VDict [("searchTerm", VStr "abc"); ("question", VStr "Who?");
                     ("answer", VStr "Me"); ("category", VStr "1");
                     ("difficulty", VInt 3)] in
  snd (serve (post_question typed_columns str_scalar latin1_lower (request body
      None))
             small_store) = small_store.
Proof.
  cbv zeta.
  refine (proj1 (search_term_takes_precedence typed_columns str_scalar
      latin1_lower
                   (request
                      (VDict [("searchTerm", VStr "abc");
                              ("question", VStr "Who?");
                              ("answer", VStr "Me"); ("category", VStr "1");
                              ("difficulty", VInt 3)]) None)
                   small_store
                   [("searchTerm", VStr "abc"); ("question", VStr "Who?");
                    ("answer", VStr "Me"); ("category", VStr "1");
                    ("difficulty", VInt 3)] eq_refl eq_refl)).
Defined.

(** X13: for a search term that is a non-empty string without a backslash,
    the pattern characters [%] and [_] can only add matches: every question
    whose text contains the term, letter case ignored, is among the matches,
    so a 404 means that no question contains the term. *)
Theorem search_finds_every_substring_match
  (columns_of :
     value -> value -> value -> value -> option (string * string * value * Z))
  (str_other : value -> string) (store_lower : N -> N)
  (req : Request) (st : Store)
  (d : list (string * value)) (term : string) :
  json req = VDict d ->
  dict_get "searchTerm" d = Some (VStr term) ->
  term <> "" ->
  no_backslash term = true ->
  let matches :=
    filter (fun q => ilike store_lower (Question.question q) ("%" ++ term ++
        "%"))
           (questions st) in
  let r := fst (serve (post_question columns_of str_other store_lower req) st)
      in
  (forall q, In q (questions st) ->
             contains_ci store_lower term (Question.question q) -> In q matches)
  /\ (status r = 404 ->
      forall q, In q (questions st)
                -> ~ contains_ci store_lower term (Question.question q)).
Proof.
  intros Hd Ht Hne Hnb matches r.
  assert (Hin : forall q, In q (questions st) ->
                          contains_ci store_lower term (Question.question q)
                          -> In q matches).
  { intros q Hq Hc. apply filter_In. split; [exact Hq|].
    now apply contains_ci_ilike. }
  split; [exact Hin|].
  subst r. unfold serve.
  rewrite (post_question_search columns_of str_other store_lower req st d term
      Hd Ht Hne).
  rewrite (search_questions_dict str_other store_lower req st d term Hd Ht).
      cbv zeta.
  fold matches. destruct (len matches =? 0) eqn:E; [|simpl; discriminate].
  apply len_zero_iff in E. intros _ q Hq Hc.
  specialize (Hin q Hq Hc). rewrite E in Hin. destruct Hin.
Qed.

Lemma search_finds_every_substring_match_witness :
  In capital_question
     (filter (fun q => ilike latin1_lower (Question.question q) "%capital%")
             (questions small_store)).
Proof.
  refine (proj1 (search_finds_every_substring_match typed_columns str_scalar
      latin1_lower
                   (request (VDict [("searchTerm", VStr "capital")]) None)
                   small_store [("searchTerm", VStr "capital")] "capital"
                   eq_refl eq_refl _ eq_refl) capital_question _ _).
  - discriminate.
  - simpl. auto.
  - exists (fold latin1_lower "What is the "),
           (fold latin1_lower " of France?").
    reflexivity.
Defined.

(** X14: a search that has matches but is asked for a page past their end
    is not a 404: it answers 200 with no questions and [total_questions] 0,
    where the plain listing answers 404 for such a page. *)
Theorem search_page_past_end
  (columns_of :
     value -> value -> value -> value -> option (string * string * value * Z))
  (str_other : value -> string) (store_lower : N -> N)
  (req : Request) (st : Store)
  (d : list (string * value)) :
  json req = VDict d ->
  truthy (dict_get_or "searchTerm" d VNone) = true ->
  1 <= args_get_page req ->
  let matches :=
    filter (fun q => ilike store_lower (Question.question q)
                       ("%" ++ fstr str_other (dict_get_or "searchTerm" d VNone)
                            ++ "%"))
           (questions st) in
  matches <> [] ->
  len matches <= (args_get_page req - 1) * 10 ->
  let r := fst (serve (post_question columns_of str_other store_lower req) st)
      in
  status r = 200
  /\ field "questions" r = Some (VList [])
  /\ field "total_questions" r = Some (VInt 0).
Proof.
  intros Hd Ht Hp matches Hm Hlen r. subst r. unfold serve.
  rewrite (post_question_search_value columns_of str_other store_lower req st d
      Hd Ht).
  cbv zeta. fold matches. destruct (len matches =? 0) eqn:E.
  - apply len_zero_iff in E. contradiction.
  - assert (Hpage : paginate_elements req matches = []).
    { rewrite (paginate_elements_eq req matches Hp).
      rewrite skipn_all2; [reflexivity|]. rewrite length_map.
      unfold len in Hlen. lia. }
    rewrite Hpage. repeat split.
Qed.

Lemma search_page_past_end_witness :
  field "total_questions"
    (fst (serve (post_question typed_columns str_scalar latin1_lower
                   (request (VDict [("searchTerm", VStr "abc")]) (Some 2)))
                small_store)) = Some (VInt 0).
Proof.
  refine (proj2 (proj2 (search_page_past_end typed_columns str_scalar
      latin1_lower
                          (request (VDict [("searchTerm", VStr "abc")])
                                   (Some 2))
                          small_store [("searchTerm", VStr "abc")]
                          eq_refl eq_refl _ _ _))).
  - unfold args_get_page, request. simpl. lia.
  - discriminate.
  - unfold args_get_page, request, len. simpl. lia.
Defined.

(** ** GET /api/categories/<id>/questions, the questions returned *)

Lemma paginate_elements_In (req : Request) (elements : list Question.t)
  (v : value) :
  In v (paginate_elements req elements) ->
  exists q, In q elements /\ v = Question.format q.
Proof.
  intros Hv. unfold paginate_elements, py_slice in Hv. cbv zeta in Hv.
  match type of Hv with
  | In _ (firstn ?k (skipn ?j ?l)) =>
      destruct (firstn_skipn_segment j k l) as (pre & post & E)
  end.
  assert (Hin : In v (map Question.format elements)).
  { rewrite E. apply in_or_app. right. apply in_or_app. now left. }
  apply in_map_iff in Hin. destruct Hin as (q & Eq & Hq). now exists q.
Qed.

(** X15: for a category that exists, every question in the answer is the
    formatted form of a question of the store whose category is the id of
    that category written in decimal, and [questions_per_page] is their
    number. *)
Theorem by_category_questions_in_category
  (req : Request) (st : Store) (c : Category.t) :
  NoDup (map Category.id (categories st)) ->
  In c (categories st) ->
  let r := fst (serve (get_questions_by_category req (Category.id c)) st) in
  exists page,
    field "questions" r = Some (VList page)
    /\ field "questions_per_page" r = Some (VInt (len page))
    /\ forall v, In v page ->
         exists q, In q (questions st)
                   /\ Question.category q = VStr (str_int (Category.id c))
                   /\ v = Question.format q.
Proof.
  intros Hnd Hin r. subst r.
  unfold serve, get_questions_by_category, bind, get_store.
  rewrite (filter_by_key Category.id (categories st) c Hnd Hin).
  eexists. split; [reflexivity|]. split; [reflexivity|].
  intros v Hv. apply paginate_elements_In in Hv.
  destruct Hv as (q & Hq & ->). apply filter_In in Hq.
  destruct Hq as [Hq Hc]. apply value_eqb_eq in Hc. now exists q.
Qed.

Lemma by_category_questions_in_category_witness :
  field "questions"
    (fst (serve (get_questions_by_category (request VNone None) 1)
                small_store))
  = Some (VList [Question.format abc_question]).
Proof.
  destruct (by_category_questions_in_category (request VNone None)
              small_store science) as (page & E & _).
  - simpl. repeat constructor; simpl; intuition discriminate.
  - simpl. auto.
  - reflexivity.
Defined.

(** ** POST /api/questions and the store *)

Lemma post_question_effect
  (columns_of :
     value -> value -> value -> value -> option (string * string * value * Z))
  (str_other : value -> string) (store_lower : N -> N)
  (req : Request) (st : Store) :
  let r := serve (post_question columns_of str_other store_lower req) st in
  (snd r = st /\ field "created" (fst r) = None)
  \/ exists row,
       Question.id row = next_id st
       /\ snd r = with_row row st
       /\ status (fst r) = 200
       /\ field "created" (fst r) = Some (VInt (next_id st))
       /\ field "total_questions" (fst r)
          = Some (VInt (len (questions st) + 1)).
Proof.
  cbv zeta. unfold serve.
  destruct (json req) as [| | | | | |d] eqn:Hd;
    try (left; unfold post_question, py_get, bind; rewrite Hd;
         split; reflexivity).
  destruct (truthy (dict_get_or "searchTerm" d VNone)) eqn:Ht.
  - left.
    rewrite (post_question_search_value columns_of str_other store_lower req st
        d Hd Ht).
    cbv zeta. destruct (len _ =? 0); split; reflexivity.
  - rewrite (post_question_create columns_of str_other store_lower req st d Hd
      Ht).
    rewrite create_question_dict. cbv zeta.
    destruct (_ || _); [left; split; reflexivity|].
    destruct (columns_of _ _ _ _) as [[[[q a] c] df]|];
      [|left; split; reflexivity].
    right. exists (Question.Build (next_id st) q a c df).
    split; [reflexivity|]. split; [reflexivity|]. split; [reflexivity|].
    split; [reflexivity|].
    unfold created_body, field. cbn [fst respond body dict_get].
    simpl. unfold len. rewrite length_app. simpl List.length.
    do 2 f_equal. lia.
Qed.

(** X16: whatever the body, the route either leaves the store as it was or
    answers 200 after adding one question at the end, with the next id of
    the store as its id and as [created], one more question in
    [total_questions], the same categories and the next id moved on by one;
    a request answered with any other status changes nothing. *)
Theorem post_question_adds_one_row
  (columns_of :
     value -> value -> value -> value -> option (string * string * value * Z))
  (str_other : value -> string) (store_lower : N -> N)
  (req : Request) (st : Store) :
  let r := serve (post_question columns_of str_other store_lower req) st in
  (status (fst r) <> 200 -> snd r = st)
  /\ (snd r = st
      \/ exists row,
           questions (snd r) = (questions st ++ [row])%list
           /\ Question.id row = next_id st
           /\ categories (snd r) = categories st
           /\ next_id (snd r) = next_id st + 1
           /\ status (fst r) = 200
           /\ field "created" (fst r) = Some (VInt (next_id st))
           /\ field "total_questions" (fst r)
              = Some (VInt (len (questions st) + 1))).
Proof.
  cbv zeta.
  destruct (post_question_effect columns_of str_other store_lower req st)
    as [[Hs _]|(row & Hid & Hs & H200 & Hc & Ht)].
  - split; [intros _; exact Hs|now left].
  - split; [intros H; contradiction|]. right. exists row.
    rewrite Hs. repeat split; assumption.
Qed.

Lemma NoDup_map_filter {A : Type} (key : A -> Z) (f : A -> bool)
  (l : list A) :
  NoDup (map key l) -> NoDup (map key (filter f l)).
Proof.
  induction l as [|x l IH]; intros Hnd; [exact Hnd|].
  simpl in Hnd. inversion Hnd as [|? ? Hnotin Hnd']; subst. simpl.
  destruct (f x); [|now apply IH]. simpl. constructor; [|now apply IH].
  intros Hin. apply Hnotin. apply in_map_iff in Hin.
  destruct Hin as (y & E & Hy). apply filter_In in Hy.
  rewrite <- E. apply in_map. tauto.
Qed.

Lemma store_ok_with_row (row : Question.t) (st : Store) :
  Question.id row = next_id st -> store_ok st -> store_ok (with_row row st).
Proof.
  intros Hid [Hnd Hlt]. unfold store_ok, with_row. cbn [questions next_id].
  split.
  - rewrite map_app. simpl. apply NoDup_app; [exact Hnd|repeat constructor;
      auto|].
    intros x Hx [E|[]]. apply in_map_iff in Hx. destruct Hx as (q & Eq & Hq).
    specialize (Hlt q Hq). lia.
  - intros q Hq. apply in_app_or in Hq. destruct Hq as [Hq|[<-|[]]].
    + specialize (Hlt q Hq). lia.
    + lia.
Qed.

Lemma store_ok_without (question_id : Z) (st : Store) :
  store_ok st -> store_ok (without question_id st).
Proof.
  intros [Hnd Hlt]. unfold store_ok, without. cbn [questions next_id]. split.
  - now apply NoDup_map_filter.
  - intros q Hq. apply filter_In in Hq. now apply Hlt.
Qed.

(** X17: if the ids of the questions are pairwise different and below the
    next id of the store, they still are after a request to create or
    search and after a request to delete, whatever the request and its
    answer. *)
Theorem store_ok_preserved
  (columns_of :
     value -> value -> value -> value -> option (string * string * value * Z))
  (str_other : value -> string) (store_lower : N -> N)
  (req : Request) (st : Store)
  (question_id : Z) :
  store_ok st ->
  store_ok (snd (serve (post_question columns_of str_other store_lower req) st))
  /\ store_ok (snd (serve (delete_question req question_id) st)).
Proof.
  intros Hok. split.
  - destruct (post_question_effect columns_of str_other store_lower req st)
      as [[-> _]|(row & Hid & -> & _)]; [exact Hok|].
    now apply store_ok_with_row.
  - unfold serve. rewrite delete_question_cases.
    destruct (filter _ (questions st)) as [|q [|q' l]]; simpl;
      try exact Hok.
    now apply store_ok_without.
Qed.

Lemma store_ok_small_store : store_ok small_store.
Proof.
  split.
  - simpl. repeat constructor; simpl; intuition discriminate.
  - simpl. intros q [<-|[<-|[]]]; simpl; lia.
Qed.

Lemma store_ok_preserved_witness :
  store_ok (snd (serve (delete_question (request VNone None) 1) small_store)).
Proof.
  exact (proj2 (store_ok_preserved typed_columns str_scalar latin1_lower
                  (request VNone None) small_store 1 store_ok_small_store)).
Defined.

(** X18: when no question of the store has the next id, deleting the id a
    create reported as [created] answers 200 and gives back the questions
    and categories the store had before the create; only the next id has
    moved on. *)
Theorem create_then_delete
  (columns_of :
     value -> value -> value -> value -> option (string * string * value * Z))
  (str_other : value -> string) (store_lower : N -> N)
  (req req' : Request) (st : Store)
  (created : Z) :
  (forall q, In q (questions st) -> Question.id q <> next_id st) ->
  let r := serve (post_question columns_of str_other store_lower req) st in
  field "created" (fst r) = Some (VInt created) ->
  let r' := serve (delete_question req' created) (snd r) in
  status (fst r') = 200
  /\ field "deleted" (fst r') = Some (VInt created)
  /\ questions (snd r') = questions st
  /\ categories (snd r') = categories st
  /\ next_id (snd r') = next_id st + 1.
Proof.
  intros Hfresh r Hc. subst r.
  destruct (post_question_effect columns_of str_other store_lower req st)
    as [[_ Hn]|(row & Hid & Hs & _ & Hc' & _)]; [congruence|].
  rewrite Hc' in Hc. inversion Hc. subst created. rewrite Hs.
  cbv zeta. unfold serve. rewrite delete_question_cases.
  assert (Hkeep : filter (fun q => negb (Question.id q =? next_id st))
                         (questions st) = questions st).
  { apply forallb_filter_id. apply forallb_forall. intros q Hq.
    apply negb_true_iff, Z.eqb_neq. now apply Hfresh. }
  assert (Hone : filter (fun q => Question.id q =? next_id st)
                        (questions (with_row row st)) = [row]).
  { unfold with_row. cbn [questions]. rewrite filter_app. simpl.
    rewrite Hid, Z.eqb_refl. rewrite filter_none; [reflexivity|].
    intros q Hq. apply Z.eqb_neq. now apply Hfresh. }
  rewrite Hone. cbv beta iota.
  split; [reflexivity|]. split; [reflexivity|]. split; [|split; reflexivity].
  cbn [snd]. unfold without, with_row. cbn [questions].
  rewrite filter_app. simpl. rewrite Hid, Z.eqb_refl. simpl.
  rewrite Hkeep. apply app_nil_r.
Qed.

Lemma create_then_delete_witness :
  let body := VDict [("question", VStr "Who?"); ("answer", VStr "Me");
                     ("category", VStr "1"); ("difficulty", VInt 3)] in
  let r := serve (post_question typed_columns str_scalar latin1_lower (request
      body None))
                 small_store in
  questions (snd (serve (delete_question (request VNone None) 3) (snd r)))
  = questions small_store.
Proof.
  cbv zeta.
  refine (proj1 (proj2 (proj2
    (create_then_delete typed_columns str_scalar latin1_lower
       (request (VDict [("question", VStr "Who?"); ("answer", VStr "Me");
                        ("category", VStr "1"); ("difficulty", VInt 3)])
                None)
       (request VNone None) small_store 3 _ eq_refl)))).
  simpl. intros q [<-|[<-|[]]]; simpl; lia.
Defined.



(** X20: a category that exists but has no question is answered 200 with an
    empty list of questions and [questions_per_page] 0, not with an error. *)
Theorem by_category_without_questions
  (req : Request) (st : Store) (c : Category.t) :
  NoDup (map Category.id (categories st)) ->
  In c (categories st) ->
  (forall q, In q (questions st) ->
             Question.category q <> VStr (str_int (Category.id c))) ->
  let r := fst (serve (get_questions_by_category req (Category.id c)) st) in
  status r = 200
  /\ field "questions" r = Some (VList [])
  /\ field "questions_per_page" r = Some (VInt 0).
Proof.
  intros Hnd Hin Hnone r. subst r.
  unfold serve, get_questions_by_category, bind, get_store.
  rewrite (filter_by_key Category.id (categories st) c Hnd Hin).
  unfold one_or_none, ret. cbv beta iota zeta.
  rewrite filter_none.
  - assert (E : paginate_elements req [] = []).
    { unfold paginate_elements, py_slice. cbv zeta. simpl map.
      now rewrite skipn_nil, firstn_nil. }
    cbv beta iota zeta. rewrite E. repeat split.
  - intros q Hq. destruct (value_eqb _ _) eqn:E; [|reflexivity].
    apply value_eqb_eq in E. now apply Hnone in E.
Qed.

Lemma by_category_without_questions_witness :
  let st := {| questions := [abc_question];
               categories := [science; art];
               next_id := 3 |} in
  field "questions"
    (fst (serve (get_questions_by_category (request VNone None) 2) st))
  = Some (VList []).
Proof.
  cbv zeta.
  refine (proj1 (proj2 (by_category_without_questions (request VNone None)
            {| questions := [abc_question];
               categories := [science; art];
               next_id := 3 |} art _ _ _))).
  - simpl. repeat constructor; simpl; intuition discriminate.
  - simpl. auto.
  - simpl. intros q [<-|[]]. discriminate.
Defined.
